(** * todo-workshop backend: authentication gate, auth routes and todo routes

    A shallow embedding of the Express handlers of the backend
    (middleware/auth.js, routes/auth.js, routes/todos.js) together with the
    properties the specification states about them.

    Conventions of the embedding.
    - A JavaScript string is the sequence of its code units; the alphabet is
      restricted to code units below 256, so [String.string] is used as is.
    - A field of a JSON request body is a [jsval]: absent ([JUndefined]) or
      a JSON scalar.  Objects and arrays are outside the model.
    - [parseInt] returns [None] for NaN and the exact integer otherwise
      (JavaScript rounds integers beyond 2^53 to a double; NaN-ness is not
      affected).  A statement that reads the value of such a number is made
      for the safe integers ([safe_integer]).
    - The id columns are Int (32 bits).  [prisma.todo.findUnique] is the
      lookup for an id the column can hold; the client refuses any other
      id, and a statement about an id without row is made for the ids the
      column can hold ([fits_Int]).
    - The Prisma client is modelled as a typed in-memory store that follows
      the schema of the repository (autoincrement keys, unique email,
      [@default], [@updatedAt]); a call the client rejects throws, and the
      handler's [catch] turns that into a 500 response.
    - bcrypt and jsonwebtoken are parameters of the development.
    - The frontend (utils/api, components/TodoList, components/Auth,
      contexts/AuthContext) is embedded over the same backend: the network
      delivers every answer, an event handler runs to its end before the
      next event, and [JSON.stringify]/[JSON.parse] are parameters. *)

From stdpp Require Import base option list gmap strings sorting.
From Stdlib Require Import ZArith Ascii String Lia.

Local Open Scope string_scope.
Local Open Scope Z_scope.

(** ** JavaScript values and string primitives *)

Module JS.

Inductive jsval :=
  | JUndefined
  | JNull
  | JBool (b : bool)
  | JNum (n : Z)
  | JStr (s : string).

(** [!v] is [negb (truthy v)]. *)
Definition truthy (v : jsval) : bool :=
  match v with
  | JUndefined | JNull => false
  | JBool b => b
  | JNum n => negb (n =? 0)
  | JStr s => negb (String.eqb s "")
  end.

(** White space and line terminators stripped by [String.prototype.trim]
    and skipped by [parseInt]: TAB, LF, VT, FF, CR, SP and NBSP. *)
Definition is_space (c : ascii) : bool :=
  let n := nat_of_ascii c in
  ((9 <=? n)%nat && (n <=? 13)%nat) || (n =? 32)%nat || (n =? 160)%nat.

Fixpoint trimStart (s : string) : string :=
  match s with
  | EmptyString => EmptyString
  | String c r => if is_space c then trimStart r else s
  end.

Fixpoint trimEnd (s : string) : string :=
  match s with
  | EmptyString => EmptyString
  | String c r =>
      match trimEnd r with
      | EmptyString => if is_space c then EmptyString else String c EmptyString
      | r' => String c r'
      end
  end.

Definition trim (s : string) : string := trimEnd (trimStart s).

(** [s.split(sep)] for a one-character separator. *)
Fixpoint split (sep : ascii) (s : string) : list string :=
  match s with
  | EmptyString => [EmptyString]
  | String c r =>
      if Ascii.eqb c sep then EmptyString :: split sep r
      else match split sep r with
           | h :: t => String c h :: t
           | [] => [String c EmptyString]
           end
  end.

(** Value of a digit in the given radix, if it is one. *)
Definition digit_value (radix : Z) (c : ascii) : option Z :=
  let n := Z.of_nat (nat_of_ascii c) in
  let v :=
    if (48 <=? n) && (n <=? 57) then Some (n - 48)
    else if (97 <=? n) && (n <=? 122) then Some (n - 87)
    else if (65 <=? n) && (n <=? 90) then Some (n - 55)
    else None in
  match v with
  | Some d => if d <? radix then Some d else None
  | None => None
  end.

(** Longest prefix of digits, accumulated left to right; [None] when the
    prefix is empty. *)
Fixpoint parse_digits (radix : Z) (acc : option Z) (s : string) : option Z :=
  match s with
  | EmptyString => acc
  | String c r =>
      match digit_value radix c with
      | Some d => parse_digits radix (Some (radix * default 0 acc + d)) r
      | None => acc
      end
  end.

Definition strip_sign (s : string) : Z * string :=
  match s with
  | String "-" r => (-1, r)
  | String "+" r => (1, r)
  | _ => (1, s)
  end.

Definition strip_radix (s : string) : Z * string :=
  match s with
  | String "0" (String "x" r) => (16, r)
  | String "0" (String "X" r) => (16, r)
  | _ => (10, s)
  end.

(** [parseInt(s)] without a radix argument; [None] is NaN. *)
Definition parseInt (s : string) : option Z :=
  let '(sign, s1) := strip_sign (trimStart s) in
  let '(radix, s2) := strip_radix s1 in
  match parse_digits radix None s2 with
  | Some n => Some (sign * n)
  | None => None
  end.

End JS.
Import JS.

(** ** The database behind the Prisma client *)

(** Rows of the [todos] table (model Todo of the Prisma schema). *)
Module Todo.
Record t := mk {
  id : Z;
  title : string;
  completed : bool;
  userId : Z;
  createdAt : Z;
  updatedAt : Z }.
End Todo.

(** Rows of the [users] table (model User of the Prisma schema). *)
Module User.
Record t := mk {
  id : Z;
  email : string;
  password : string;
  createdAt : Z;
  updatedAt : Z }.
End User.

(** [users] is keyed by the [@unique] column email, [todos] by the primary
    key; the two sequences feed [@default(autoincrement())]. *)
Record Db := mkDb {
  users : gmap string User.t;
  user_seq : Z;
  todos : gmap Z Todo.t;
  todo_seq : Z }.

Definition empty_db : Db := mkDb ∅ 1 ∅ 1.

(** The sequence of [todos] is ahead of every key handed out so far. *)
Definition db_ok (db : Db) : Prop :=
  ∀ i t, todos db !! i = Some t → i < todo_seq db.

(** Whether an account has the given id: the target of the foreign key
    [Todo.userId] of the schema. *)
Definition has_user (db : Db) (userId : Z) : bool :=
  bool_decide (map_Exists (λ _ u, User.id u = userId) (users db)).

(** The values of an Int column: 32-bit signed integers. *)
Definition fits_Int (n : Z) : bool := (- 2 ^ 31 <=? n) && (n <=? 2 ^ 31 - 1).

(** The integers a JavaScript number holds exactly, one by one. *)
Definition safe_integer (n : Z) : bool :=
  (- (2 ^ 53 - 1) <=? n) && (n <=? 2 ^ 53 - 1).

(** ** Exceptions, and the monad the handlers run in *)

Inductive exn :=
  | TypeError
  | PrismaClientValidationError
  | PrismaClientKnownRequestError (code : string)
  | IllegalArguments.

Inductive result (A : Type) :=
  | Ok (a : A)
  | Throw (e : exn).
Arguments Ok {A} a.
Arguments Throw {A} e.

(** A computation reads and writes the database and may throw; what it
    wrote before throwing stays written. *)
Definition M (A : Type) : Type := Db → result A * Db.

Definition ret {A} (a : A) : M A := λ db, (Ok a, db).
Definition throw {A} (e : exn) : M A := λ db, (Throw e, db).
Definition bind {A B} (m : M A) (k : A → M B) : M B :=
  λ db, match m db with
        | (Ok a, db') => k a db'
        | (Throw e, db') => (Throw e, db')
        end.
Definition lift {A} (r : result A) : M A := λ db, (r, db).

Notation "'let!' x ':=' m 'in' k" := (bind m (λ x, k))
  (at level 10, x name, m at level 100, k at level 200, only parsing).

(** ** Responses *)

Inductive payload :=
  | ErrorBody (error : string)
  | MessageBody (message : string)
  | TodoBody (todo : Todo.t)
  | TodosBody (todos : list Todo.t)
  | AuthBody (message token : string) (id : Z) (email : string).

Record response := mkResponse { status : Z; json : payload }.

(** [try { ... } catch (error) { res.status(500).json({ error: msg }) }] *)
Definition try_catch (m : M response) (msg : string) (db : Db) : response * Db :=
  match m db with
  | (Ok r, db') => (r, db')
  | (Throw _, db') => (mkResponse 500 (ErrorBody msg), db')
  end.

(** ** Method calls on request fields *)

(** [v.trim()]: a TypeError unless [v] is a string. *)
Definition js_trim (v : jsval) : result string :=
  match v with
  | JStr s => Ok (trim s)
  | _ => Throw TypeError
  end.

(** [v.length < n] for a truthy [v]: the length of a number or of a boolean
    is undefined and [undefined < n] is false. *)
Definition length_lt (v : jsval) (n : nat) : bool :=
  match v with
  | JStr s => (String.length s <? n)%nat
  | _ => false
  end.

(** ** Prisma client calls *)

Definition newer_first (a b : Todo.t) : Prop :=
  Todo.createdAt b ≤ Todo.createdAt a.

#[global] Instance newer_first_dec : RelDecision newer_first.
Proof. intros a b. unfold newer_first. apply _. Defined.

Module prisma.

Module user.
(** [prisma.user.findUnique({ where: { email } })] *)
Definition findUnique (email : jsval) : M (option User.t) :=
  match email with
  | JStr e => λ db, (Ok (users db !! e), db)
  | _ => throw PrismaClientValidationError
  end.

(** [prisma.user.create({ data: { email, password } })] *)
Definition create (now : Z) (email : jsval) (password : string) : M User.t :=
  match email with
  | JStr e => λ db,
      match users db !! e with
      | Some _ => (Throw (PrismaClientKnownRequestError "P2002"), db)
      | None =>
          let u := User.mk (user_seq db) e password now now in
          (Ok u, mkDb (<[e := u]> (users db)) (user_seq db + 1)
                      (todos db) (todo_seq db))
      end
  | _ => throw PrismaClientValidationError
  end.
End user.

Module todo.
(** [prisma.todo.findMany({ where: { userId }, orderBy: { createdAt: 'desc' } })] *)
Definition findMany (userId : Z) : M (list Todo.t) :=
  λ db, (Ok (merge_sort newer_first
               (filter (λ t, Todo.userId t = userId)
                       (snd <$> map_to_list (todos db)))), db).

(** [prisma.todo.findUnique({ where: { id } })], for an id the Int column
    can hold. *)
Definition findUnique (id : Z) : M (option Todo.t) :=
  λ db, (Ok (todos db !! id), db).

(** [prisma.todo.create({ data: { title, userId } })]; [userId] is a foreign
    key to [User.id], and the database refuses a row without its account
    (P2003) as it refuses a key that is taken (P2002). *)
Definition create (now : Z) (title : string) (userId : Z) : M Todo.t :=
  λ db,
    let i := todo_seq db in
    if negb (has_user db userId) then
      (Throw (PrismaClientKnownRequestError "P2003"),
       mkDb (users db) (user_seq db) (todos db) (i + 1))
    else
      match todos db !! i with
      | Some _ => (Throw (PrismaClientKnownRequestError "P2002"),
                   mkDb (users db) (user_seq db) (todos db) (i + 1))
      | None =>
          let t := Todo.mk i title false userId now now in
          (Ok t, mkDb (users db) (user_seq db) (<[i := t]> (todos db)) (i + 1))
      end.

(** The object built by the update handler: a field is [None] when the
    handler did not set it. *)
Record updateData := mkUpdateData {
  data_title : option string;
  data_completed : option jsval }.

(** [prisma.todo.update({ where: { id }, data })]; [completed] is a Boolean
    column, and [@updatedAt] is set when the data carry a field: with an
    empty object the client writes nothing. *)
Definition update (now : Z) (id : Z) (data : updateData) : M Todo.t :=
  λ db,
    match data_completed data with
    | Some (JBool _) | None =>
        match todos db !! id with
        | None => (Throw (PrismaClientKnownRequestError "P2025"), db)
        | Some t =>
            let t' := Todo.mk (Todo.id t)
                        (default (Todo.title t) (data_title data))
                        (match data_completed data with
                         | Some (JBool b) => b
                         | _ => Todo.completed t
                         end)
                        (Todo.userId t) (Todo.createdAt t)
                        (match data_title data, data_completed data with
                         | None, None => Todo.updatedAt t
                         | _, _ => now
                         end) in
            (Ok t', mkDb (users db) (user_seq db) (<[id := t']> (todos db))
                         (todo_seq db))
        end
    | Some _ => (Throw PrismaClientValidationError, db)
    end.

(** [prisma.todo.delete({ where: { id } })] *)
Definition delete (id : Z) : M Todo.t :=
  λ db,
    match todos db !! id with
    | None => (Throw (PrismaClientKnownRequestError "P2025"), db)
    | Some t => (Ok t, mkDb (users db) (user_seq db)
                            (base.delete id (todos db)) (todo_seq db))
    end.
End todo.

End prisma.

(** ** Requests *)

(** Body of a request to the auth routes. *)
Module Credentials.
Record t := mk { email : jsval; password : jsval }.
End Credentials.

(** Body of a request to the todo routes. *)
Module Body.
Record t := mk { title : jsval; completed : jsval }.
End Body.

(** The routes mounted on the todo router; [id] is [req.params.id]. *)
Inductive route :=
  | GET_todos
  | GET_todo (id : string)
  | POST_todo
  | PUT_todo (id : string)
  | DELETE_todo (id : string).

Record request := mkRequest {
  authorization : option string;
  target : route;
  body : Body.t }.

(** What a middleware does with a request: answer it, or call [next()]
    with [req.userId] set. *)
Inductive gate :=
  | Respond (r : response)
  | Next (userId : Z).

(** ** Handlers *)

Section Handlers.

(** [bcrypt.hash(password, 10)] with the salt it draws, [bcrypt.compare],
    [jwt.sign({ userId }, JWT_SECRET, { expiresIn: '24h' })] at a given time
    and [jwt.verify(token, JWT_SECRET)] at a given time, yielding
    [decoded.userId]. *)
Variable bcrypt_hash : string → string → string.
Variable bcrypt_compare : string → string → bool.
Variable jwt_sign : Z → Z → string.
Variable jwt_verify : Z → string → option Z.

(** [bcrypt.hash(password, 10)] *)
Definition bcrypt_hash_js (salt : string) (password : jsval) : result string :=
  match password with
  | JStr p => Ok (bcrypt_hash salt p)
  | _ => Throw IllegalArguments
  end.

(** [bcrypt.compare(password, hash)] *)
Definition bcrypt_compare_js (password : jsval) (hash : string) : result bool :=
  match password with
  | JStr p => Ok (bcrypt_compare p hash)
  | _ => Throw IllegalArguments
  end.

(** *** middleware/auth.js *)

(** [authHeader && authHeader.split(' ')[1]]; [None] is undefined. *)
Definition header_token (authHeader : option string) : option string :=
  match authHeader with
  | None => None
  | Some h => if String.eqb h "" then Some "" else split " " h !! 1%nat
  end.

(** The callback given to [jwt.verify]: [err] set, or [decoded.userId]. *)
Definition verify_callback (decoded : option Z) : gate :=
  match decoded with
  | None => Respond (mkResponse 403 (ErrorBody "Invalid or expired token"))
  | Some userId => Next userId
  end.

Definition authenticateToken (now : Z) (authHeader : option string) : gate :=
  match header_token authHeader with
  | None | Some EmptyString =>
      Respond (mkResponse 401 (ErrorBody "Access token required"))
  | Some token => verify_callback (jwt_verify now token)
  end.

(** *** routes/auth.js *)

Definition signup (now : Z) (salt : string) (req : Credentials.t)
  : Db → response * Db :=
  let email := Credentials.email req in
  let password := Credentials.password req in
  try_catch
    (if negb (truthy email) || negb (truthy password) then
       ret (mkResponse 400 (ErrorBody "Email and password are required"))
     else if length_lt password 6 then
       ret (mkResponse 400 (ErrorBody "Password must be at least 6 characters"))
     else
       let! existingUser := prisma.user.findUnique email in
       match existingUser with
       | Some _ => ret (mkResponse 400 (ErrorBody "User already exists"))
       | None =>
           let! hashedPassword := lift (bcrypt_hash_js salt password) in
           let! user := prisma.user.create now email hashedPassword in
           let token := jwt_sign (User.id user) now in
           ret (mkResponse 201
                  (AuthBody "User created successfully" token
                            (User.id user) (User.email user)))
       end)
    "Something went wrong during signup".

Definition login (now : Z) (req : Credentials.t) : Db → response * Db :=
  let email := Credentials.email req in
  let password := Credentials.password req in
  try_catch
    (if negb (truthy email) || negb (truthy password) then
       ret (mkResponse 400 (ErrorBody "Email and password are required"))
     else
       let! user := prisma.user.findUnique email in
       match user with
       | None => ret (mkResponse 401 (ErrorBody "Invalid credentials"))
       | Some user =>
           let! isValidPassword :=
             lift (bcrypt_compare_js password (User.password user)) in
           if negb isValidPassword then
             ret (mkResponse 401 (ErrorBody "Invalid credentials"))
           else
             let token := jwt_sign (User.id user) now in
             ret (mkResponse 200
                    (AuthBody "Login successful" token
                              (User.id user) (User.email user)))
       end)
    "Something went wrong during login".

(** *** routes/todos.js; [userId] is [req.userId] *)

Definition get_todos (userId : Z) : Db → response * Db :=
  try_catch
    (let! todos := prisma.todo.findMany userId in
     ret (mkResponse 200 (TodosBody todos)))
    "Failed to fetch todos".

Definition get_todo (userId : Z) (id : string) : Db → response * Db :=
  try_catch
    (match parseInt id with
     | None => ret (mkResponse 400 (ErrorBody "Invalid todo ID"))
     | Some todoId =>
         let! todo := prisma.todo.findUnique todoId in
         match todo with
         | None => ret (mkResponse 404 (ErrorBody "Todo not found"))
         | Some todo =>
             if negb (Todo.userId todo =? userId) then
               ret (mkResponse 403 (ErrorBody "Access denied"))
             else ret (mkResponse 200 (TodoBody todo))
         end
     end)
    "Failed to fetch todo".

Definition post_todo (now : Z) (userId : Z) (b : Body.t) : Db → response * Db :=
  let title := Body.title b in
  try_catch
    (let! blank :=
       (if negb (truthy title) then ret true
        else let! trimmed := lift (js_trim title) in
             ret (String.eqb trimmed "")) in
     if (blank : bool) then ret (mkResponse 400 (ErrorBody "Title is required"))
     else
       let! trimmed := lift (js_trim title) in
       let! todo := prisma.todo.create now trimmed userId in
       ret (mkResponse 201 (TodoBody todo)))
    "Failed to create todo".

(** The [updateData] object of the update handler. *)
Definition build_updateData (title completed : jsval)
  : result prisma.todo.updateData :=
  match (match title with
         | JUndefined => Ok None
         | _ => match js_trim title with
                | Ok s => Ok (Some s)
                | Throw e => Throw e
                end
         end) with
  | Throw e => Throw e
  | Ok data_title =>
      Ok (prisma.todo.mkUpdateData data_title
            (match completed with
             | JUndefined => None
             | _ => Some completed
             end))
  end.

Definition put_todo (now : Z) (userId : Z) (id : string) (b : Body.t)
  : Db → response * Db :=
  let title := Body.title b in
  let completed := Body.completed b in
  try_catch
    (match parseInt id with
     | None => ret (mkResponse 400 (ErrorBody "Invalid todo ID"))
     | Some todoId =>
         let! existingTodo := prisma.todo.findUnique todoId in
         match existingTodo with
         | None => ret (mkResponse 404 (ErrorBody "Todo not found"))
         | Some existingTodo =>
             if negb (Todo.userId existingTodo =? userId) then
               ret (mkResponse 403 (ErrorBody "Access denied"))
             else
               let! updateData := lift (build_updateData title completed) in
               let! updatedTodo := prisma.todo.update now todoId updateData in
               ret (mkResponse 200 (TodoBody updatedTodo))
         end
     end)
    "Failed to update todo".

Definition delete_todo (userId : Z) (id : string) : Db → response * Db :=
  try_catch
    (match parseInt id with
     | None => ret (mkResponse 400 (ErrorBody "Invalid todo ID"))
     | Some todoId =>
         let! existingTodo := prisma.todo.findUnique todoId in
         match existingTodo with
         | None => ret (mkResponse 404 (ErrorBody "Todo not found"))
         | Some existingTodo =>
             if negb (Todo.userId existingTodo =? userId) then
               ret (mkResponse 403 (ErrorBody "Access denied"))
             else
               let! _deleted := prisma.todo.delete todoId in
               ret (mkResponse 200 (MessageBody "Todo deleted successfully"))
         end
     end)
    "Failed to delete todo".

(** The handler a route is bound to, once the gate has set [req.userId]. *)
Definition handle (now : Z) (userId : Z) (r : route) (b : Body.t)
  : Db → response * Db :=
  match r with
  | GET_todos => get_todos userId
  | GET_todo id => get_todo userId id
  | POST_todo => post_todo now userId b
  | PUT_todo id => put_todo now userId id b
  | DELETE_todo id => delete_todo userId id
  end.

(** The todo router: [router.use(authenticateToken)] in front of every
    route. *)
Definition todos_router (now : Z) (req : request) (db : Db) : response * Db :=
  match authenticateToken now (authorization req) with
  | Respond r => (r, db)
  | Next userId => handle now userId (target req) (body req) db
  end.

End Handlers.

(** What the update handler does once existence and ownership are
    settled. *)
Definition update_owned (now todoId : Z) (b : Body.t) : M response :=
  let! updateData :=
    lift (build_updateData (Body.title b) (Body.completed b)) in
  let! updatedTodo := prisma.todo.update now todoId updateData in
  ret (mkResponse 200 (TodoBody updatedTodo)).

(** A body whose fields are absent or of the type of their column. *)
Definition typed_body (title : option string) (completed : option bool)
  : Body.t :=
  Body.mk (from_option JStr JUndefined title)
          (from_option JBool JUndefined completed).

(** ** The header format the specification expects *)

(** [<scheme> <token>]: exactly two segments around one space, neither of
    them empty. *)
Definition two_token_format (h : string) : bool :=
  match split " " h with
  | [scheme; token] => negb (String.eqb scheme "") && negb (String.eqb token "")
  | _ => false
  end.

(** The id a single-resource route carries. *)
Definition single_resource (r : route) : option string :=
  match r with
  | GET_todo id | PUT_todo id | DELETE_todo id => Some id
  | GET_todos | POST_todo => None
  end.

(** ** A small instance, used to run the handlers *)

Module Fixture.

Definition bcrypt_hash (salt p : string) : string := salt ++ "$" ++ p.
Definition bcrypt_compare (p hash : string) : bool :=
  match split "$" hash with
  | [_; q] => String.eqb p q
  | _ => false
  end.
Definition jwt_sign (userId _now : Z) : string :=
  if userId =? 1 then "tok1" else if userId =? 2 then "tok2" else "tok".
Definition jwt_verify (_now : Z) (token : string) : option Z :=
  if String.eqb token "tok1" then Some 1
  else if String.eqb token "tok2" then Some 2
  else None.

Definition alice : User.t := User.mk 1 "a@x.com" "salt$secret1" 5 5.
Definition bob : User.t := User.mk 2 "b@x.com" "salt$hunter22" 6 6.
Definition milk : Todo.t := Todo.mk 1 "buy milk" false 1 10 10.
Definition dog : Todo.t := Todo.mk 2 "walk dog" false 2 20 20.

Definition db : Db :=
  mkDb (<["a@x.com" := alice]> {[ "b@x.com" := bob ]}) 3
       (<[1 := milk]> {[ 2 := dog ]}) 3.

Definition no_body : Body.t := Body.mk JUndefined JUndefined.

(** The accounts of [db], before any todo. *)
Definition accounts : Db :=
  mkDb (<["a@x.com" := alice]> {[ "b@x.com" := bob ]}) 3 ∅ 1.

End Fixture.

(** Signup, create "buy milk", mark it completed, delete it, read it. *)
Definition scenario : list response :=
  let '(r1, db1) :=
    signup Fixture.bcrypt_hash Fixture.jwt_sign 100 "salt"
      (Credentials.mk (JStr "u1") (JStr "pw123456")) empty_db in
  let run req db := todos_router Fixture.jwt_verify 101 req db in
  let auth := Some "Bearer tok1" in
  let '(r2, db2) :=
    run (mkRequest auth POST_todo (Body.mk (JStr "buy milk") JUndefined)) db1 in
  let '(r3, db3) :=
    run (mkRequest auth (PUT_todo "1") (Body.mk JUndefined (JBool true))) db2 in
  let '(r4, db4) := run (mkRequest auth (DELETE_todo "1") Fixture.no_body) db3 in
  let '(r5, _) := run (mkRequest auth (GET_todo "1") Fixture.no_body) db4 in
  [r1; r2; r3; r4; r5].

(** ** Histories of requests, and what every reachable store satisfies *)

(** One request to the backend, with the time it arrives at (and, for a
    signup, the salt bcrypt draws). *)
Inductive api_call :=
  | Signup (now : Z) (salt : string) (req : Credentials.t)
  | Login (now : Z) (req : Credentials.t)
  | Todos (now : Z) (req : request).

Section Histories.

Variable bcrypt_hash : string → string → string.
Variable bcrypt_compare : string → string → bool.
Variable jwt_sign : Z → Z → string.
Variable jwt_verify : Z → string → option Z.

Definition serve (c : api_call) (db : Db) : response * Db :=
  match c with
  | Signup now salt req => signup bcrypt_hash jwt_sign now salt req db
  | Login now req => login bcrypt_compare jwt_sign now req db
  | Todos now req => todos_router jwt_verify now req db
  end.

(** The store after a history of requests, served one after the other. *)
Fixpoint run (calls : list api_call) (db : Db) : Db :=
  match calls with
  | [] => db
  | c :: calls => run calls (serve c db).2
  end.

End Histories.

(** Every row sits under its own id. *)
Definition rows_keyed (db : Db) : Prop :=
  ∀ i t, todos db !! i = Some t → Todo.id t = i.

(** Every account sits under its own email, and its id was drawn from the
    sequence. *)
Definition users_keyed (db : Db) : Prop :=
  ∀ e u, users db !! e = Some u → User.email u = e ∧ User.id u < user_seq db.

(** No two accounts share an id. *)
Definition user_ids_distinct (db : Db) : Prop :=
  ∀ e1 e2 u1 u2,
    users db !! e1 = Some u1 → users db !! e2 = Some u2 →
    User.id u1 = User.id u2 → e1 = e2.

(** Stored titles carry no white space at either end. *)
Definition titles_trimmed (db : Db) : Prop :=
  ∀ i t, todos db !! i = Some t → trim (Todo.title t) = Todo.title t.

(** The todos a response body carries. *)
Definition payload_todos (p : payload) : list Todo.t :=
  match p with
  | TodoBody t => [t]
  | TodosBody l => l
  | ErrorBody _ | MessageBody _ | AuthBody _ _ _ _ => []
  end.

(** ** The string of an integer *)

(** [String(n)], as a template literal computes it for a safe integer [n]
    ([safe_integer]); beyond 10^21 JavaScript switches to exponent
    notation, and beyond 2^53 a number is not every integer. *)
Definition digit_char (d : Z) : ascii := ascii_of_nat (Z.to_nat (48 + d)).

Fixpoint digits (fuel : nat) (n : Z) (rest : string) : string :=
  match fuel with
  | O => rest
  | S fuel =>
      let rest := String (digit_char (n mod 10)) rest in
      if n <? 10 then rest else digits fuel (n / 10) rest
  end.

Definition Number_toString (n : Z) : string :=
  if n <? 0 then String "-" (digits (S (Z.to_nat (- n))) (- n) "")
  else digits (S (Z.to_nat n)) n "".

(** A remainder of the id parameter at which [parseInt] stops reading a
    decimal number: nothing, or a character that is neither a decimal digit
    nor the [x] of a hexadecimal prefix. *)
Definition ends_number (rest : string) : bool :=
  match rest with
  | EmptyString => true
  | String c _ =>
      match digit_value 10 c with
      | Some _ => false
      | None => negb (Ascii.eqb c "x") && negb (Ascii.eqb c "X")
      end
  end.

(** An error answer of the handlers: a non-empty message under a 4xx or
    5xx status. *)
Definition error_answer (r : response) : Prop :=
  ∃ msg, json r = ErrorBody msg ∧ msg ≠ ""
         ∧ (status r = 400 ∨ status r = 401 ∨ status r = 403
            ∨ status r = 404 ∨ status r = 500).

(** ** The frontend: API client, todo list, auth form, auth provider *)

(** What awaiting [fetchWrapper] gives: the parsed body, or the message of
    the [Error] it throws.  The network always delivers the answer of the
    backend. *)
Inductive fetched :=
  | Data (data : payload)
  | Thrown (message : string).

(** [response.ok], then [data.error || 'Something went wrong']. *)
Definition fetchWrapper (r : response) : fetched :=
  if (200 <=? status r) && (status r <=? 299) then Data (json r)
  else Thrown (match json r with
               | ErrorBody e =>
                   if String.eqb e "" then "Something went wrong" else e
               | _ => "Something went wrong"
               end).

(** A string without the space character. *)
Fixpoint no_space (s : string) : bool :=
  match s with
  | EmptyString => true
  | String c r => negb (Ascii.eqb c " ") && no_space r
  end.

(** [s.includes(c)] for a one-character [c]. *)
Fixpoint includes (s : string) (c : ascii) : bool :=
  match s with
  | EmptyString => false
  | String a r => Ascii.eqb a c || includes r c
  end.

(** State of the TodoList component. *)
Module TodoList.
Record t := mk {
  todos : list Todo.t;
  newTodoTitle : string;
  loading : bool;
  error : string }.
End TodoList.

(** State of the Auth component. *)
Module AuthForm.
Record t := mk {
  isLogin : bool;
  email : string;
  password : string;
  error : string;
  loading : bool }.
End AuthForm.

(** The [user] object of an auth answer. *)
Record session_user := mkSessionUser { user_id : Z; user_email : string }.

(** State of the AuthProvider component; [J] is the type of parsed JSON
    values, and [None] is the initial null. *)
Module AuthProvider.
Record t (J : Type) := mk {
  user : option J;
  token : option string;
  loading : bool }.
Arguments mk {J} user token loading.
Arguments user {J} t.
Arguments token {J} t.
Arguments loading {J} t.
End AuthProvider.

(** [!token] for the token of the auth context: null or the empty string. *)
Definition no_token (token : option string) : bool :=
  match token with
  | None | Some EmptyString => true
  | Some _ => false
  end.

Section Frontend.

Variable bcrypt_hash : string → string → string.
Variable bcrypt_compare : string → string → bool.
Variable jwt_sign : Z → Z → string.
Variable jwt_verify : Z → string → option Z.

(** *** utils/api: one function per endpoint; [now] is the time the request
    reaches the backend *)

Definition api_signup (now : Z) (salt : string) (email password : string)
  (db : Db) : fetched * Db :=
  let '(r, db') :=
    signup bcrypt_hash jwt_sign now salt
      (Credentials.mk (JStr email) (JStr password)) db in
  (fetchWrapper r, db').

Definition api_login (now : Z) (email password : string) (db : Db)
  : fetched * Db :=
  let '(r, db') :=
    login bcrypt_compare jwt_sign now
      (Credentials.mk (JStr email) (JStr password)) db in
  (fetchWrapper r, db').

Definition getTodos (now : Z) (token : string) (db : Db) : fetched * Db :=
  let '(r, db') :=
    todos_router jwt_verify now
      (mkRequest (Some ("Bearer " ++ token)) GET_todos
                 (Body.mk JUndefined JUndefined)) db in
  (fetchWrapper r, db').

Definition createTodo (now : Z) (token title : string) (db : Db)
  : fetched * Db :=
  let '(r, db') :=
    todos_router jwt_verify now
      (mkRequest (Some ("Bearer " ++ token)) POST_todo
                 (Body.mk (JStr title) JUndefined)) db in
  (fetchWrapper r, db').

Definition updateTodo (now : Z) (token : string) (id : Z) (updates : Body.t)
  (db : Db) : fetched * Db :=
  let '(r, db') :=
    todos_router jwt_verify now
      (mkRequest (Some ("Bearer " ++ token)) (PUT_todo (Number_toString id))
                 updates) db in
  (fetchWrapper r, db').

Definition deleteTodo (now : Z) (token : string) (id : Z) (db : Db)
  : fetched * Db :=
  let '(r, db') :=
    todos_router jwt_verify now
      (mkRequest (Some ("Bearer " ++ token)) (DELETE_todo (Number_toString id))
                 (Body.mk JUndefined JUndefined)) db in
  (fetchWrapper r, db').

(** *** components/TodoList: each handler runs to its end before the next
    event; an answer that is not of the shape the handler reads does not
    occur and leaves the list as it is *)

Definition fetchTodos (now : Z) (token : option string) (st : TodoList.t)
  (db : Db) : TodoList.t * Db :=
  if no_token token then (st, db)
  else
    match getTodos now (default "" token) db with
    | (Data (TodosBody data), db') =>
        (TodoList.mk data (TodoList.newTodoTitle st) false "", db')
    | (Data _, db') =>
        (TodoList.mk (TodoList.todos st) (TodoList.newTodoTitle st) false "",
         db')
    | (Thrown message, db') =>
        (TodoList.mk (TodoList.todos st) (TodoList.newTodoTitle st) false
                     message, db')
    end.

Definition handleCreateTodo (now : Z) (token : option string)
  (st : TodoList.t) (db : Db) : TodoList.t * Db :=
  if String.eqb (trim (TodoList.newTodoTitle st)) "" then
    (TodoList.mk (TodoList.todos st) (TodoList.newTodoTitle st)
                 (TodoList.loading st) "Please enter a todo title", db)
  else if no_token token then (st, db)
  else
    match createTodo now (default "" token) (TodoList.newTodoTitle st) db with
    | (Data (TodoBody newTodo), db') =>
        (TodoList.mk (newTodo :: TodoList.todos st) ""
                     (TodoList.loading st) "", db')
    | (Data _, db') =>
        (TodoList.mk (TodoList.todos st) "" (TodoList.loading st) "", db')
    | (Thrown message, db') =>
        (TodoList.mk (TodoList.todos st) (TodoList.newTodoTitle st)
                     (TodoList.loading st) message, db')
    end.

Definition handleToggleTodo (now : Z) (token : option string) (todo : Todo.t)
  (st : TodoList.t) (db : Db) : TodoList.t * Db :=
  if no_token token then (st, db)
  else
    match updateTodo now (default "" token) (Todo.id todo)
            (Body.mk JUndefined (JBool (negb (Todo.completed todo)))) db with
    | (Data (TodoBody updatedTodo), db') =>
        (TodoList.mk
           ((λ t, if Todo.id t =? Todo.id todo then updatedTodo else t)
              <$> TodoList.todos st)
           (TodoList.newTodoTitle st) (TodoList.loading st) "", db')
    | (Data _, db') =>
        (TodoList.mk (TodoList.todos st) (TodoList.newTodoTitle st)
                     (TodoList.loading st) "", db')
    | (Thrown message, db') =>
        (TodoList.mk (TodoList.todos st) (TodoList.newTodoTitle st)
                     (TodoList.loading st) message, db')
    end.

Definition handleDeleteTodo (now : Z) (token : option string) (id : Z)
  (st : TodoList.t) (db : Db) : TodoList.t * Db :=
  if no_token token then (st, db)
  else
    match deleteTodo now (default "" token) id db with
    | (Data _, db') =>
        (TodoList.mk
           (filter (λ t, Todo.id t ≠ id) (TodoList.todos st))
           (TodoList.newTodoTitle st) (TodoList.loading st) "", db')
    | (Thrown message, db') =>
        (TodoList.mk (TodoList.todos st) (TodoList.newTodoTitle st)
                     (TodoList.loading st) message, db')
    end.

(** The figures of the summary line: total, completed, pending. *)
Definition summary (st : TodoList.t) : nat * nat * nat :=
  (List.length (TodoList.todos st),
   List.length (filter (λ t, Todo.completed t = true) (TodoList.todos st)),
   List.length
     (filter (λ t, negb (Todo.completed t) = true) (TodoList.todos st))).

(** *** components/Auth *)

(** The checks of [handleSubmit] before any request: the error to show, if
    any. *)
Definition form_error (form : AuthForm.t) : option string :=
  if String.eqb (AuthForm.email form) ""
     || String.eqb (AuthForm.password form) "" then
    Some "Please fill in all fields"
  else if negb (includes (AuthForm.email form) "@") then
    Some "Please enter a valid email"
  else if (String.length (AuthForm.password form) <? 6)%nat then
    Some "Password must be at least 6 characters"
  else None.

(** [handleSubmit]: the form afterwards, the arguments of the call
    [login(response.token, response.user)] if it is made, and the store.
    A success answer without token and user does not occur and makes no
    call. *)
Definition handleSubmit (now : Z) (salt : string) (form : AuthForm.t) (db : Db)
  : AuthForm.t * option (string * session_user) * Db :=
  match form_error form with
  | Some message =>
      (AuthForm.mk (AuthForm.isLogin form) (AuthForm.email form)
                   (AuthForm.password form) message (AuthForm.loading form),
       None, db)
  | None =>
      let '(answer, db') :=
        if AuthForm.isLogin form
        then api_login now (AuthForm.email form) (AuthForm.password form) db
        else api_signup now salt (AuthForm.email form)
                        (AuthForm.password form) db in
      match answer with
      | Data (AuthBody _ token id email) =>
          (AuthForm.mk (AuthForm.isLogin form) (AuthForm.email form)
                       (AuthForm.password form) "" false,
           Some (token, mkSessionUser id email), db')
      | Data _ =>
          (AuthForm.mk (AuthForm.isLogin form) (AuthForm.email form)
                       (AuthForm.password form) "" false, None, db')
      | Thrown message =>
          (AuthForm.mk (AuthForm.isLogin form) (AuthForm.email form)
                       (AuthForm.password form) message false, None, db')
      end
  end.

End Frontend.

(** *** contexts/AuthContext: the provider and [localStorage] *)

Section Provider.

(** JSON values, [JSON.stringify], and [JSON.parse], which throws on what
    is not JSON ([None]). *)
Variable J : Type.
Variable JSON_stringify : J → string.
Variable JSON_parse : string → option J.

(** The effect run once on mount, from the initial state. *)
Definition mount (localStorage : gmap string string)
  : AuthProvider.t J * gmap string string :=
  let storedToken := localStorage !! "token" in
  let storedUser := localStorage !! "user" in
  if negb (no_token storedToken) && negb (no_token storedUser) then
    match JSON_parse (default "" storedUser) with
    | Some parsedUser =>
        (AuthProvider.mk (Some parsedUser) storedToken false, localStorage)
    | None =>
        (AuthProvider.mk None None false,
         base.delete "user" (base.delete "token" localStorage))
    end
  else (AuthProvider.mk None None false, localStorage).

Definition provider_login (newToken : string) (newUser : J)
  (st : AuthProvider.t J) (localStorage : gmap string string)
  : AuthProvider.t J * gmap string string :=
  (AuthProvider.mk (Some newUser) (Some newToken) (AuthProvider.loading st),
   <["user" := JSON_stringify newUser]> (<["token" := newToken]> localStorage)).

Definition provider_logout (st : AuthProvider.t J)
  (localStorage : gmap string string)
  : AuthProvider.t J * gmap string string :=
  (AuthProvider.mk None None (AuthProvider.loading st),
   base.delete "user" (base.delete "token" localStorage)).

End Provider.

(** The list on screen shows the todos of a principal: each of them once,
    as the store has it, and nothing else. *)
Definition shows (userId : Z) (st : TodoList.t) (db : Db) : Prop :=
  (∀ t, t ∈ TodoList.todos st
        ↔ todos db !! Todo.id t = Some t ∧ Todo.userId t = userId)
  ∧ NoDup (Todo.id <$> TodoList.todos st).

(** What the user does in the todo list. *)
Inductive todo_event :=
  | Refresh
  | SubmitNew
  | Toggle (todo : Todo.t)
  | Remove (id : Z).

Definition todo_step (jwt_verify : Z → string → option Z) (now : Z)
  (token : option string) (ev : todo_event) (st : TodoList.t) (db : Db)
  : TodoList.t * Db :=
  match ev with
  | Refresh => fetchTodos jwt_verify now token st db
  | SubmitNew => handleCreateTodo jwt_verify now token st db
  | Toggle todo => handleToggleTodo jwt_verify now token todo st db
  | Remove id => handleDeleteTodo jwt_verify now token id st db
  end.

(** A stand-in for JSON on user objects, used to run the provider. *)
Module JsonFixture.

Definition stringify (u : session_user) : string :=
  Number_toString (user_id u) ++ ":" ++ user_email u.

Definition parse (s : string) : option session_user :=
  match split ":" s with
  | [i; e] =>
      match parseInt i with
      | Some n => Some (mkSessionUser n e)
      | None => None
      end
  | _ => None
  end.

End JsonFixture.

(** * Properties *)

(** ** The primitives on sample inputs *)

Example parseInt_5 : parseInt "5" = Some 5.
Proof. reflexivity. Qed.
Example parseInt_12abc : parseInt " 12abc" = Some 12.
Proof. reflexivity. Qed.
Example parseInt_hex : parseInt "-0x1F" = Some (-31).
Proof. reflexivity. Qed.
Example parseInt_abc : parseInt "abc" = None.
Proof. reflexivity. Qed.
Example parseInt_0x : parseInt "0x" = None.
Proof. reflexivity. Qed.
Example trim_buy_milk : trim "  buy milk  " = "buy milk".
Proof. reflexivity. Qed.
Example trim_blank : trim "   " = "".
Proof. reflexivity. Qed.
Example split_bearer : split " " "Bearer abc" = ["Bearer"; "abc"].
Proof. reflexivity. Qed.
Example split_empty : split " " "" = [""].
Proof. reflexivity. Qed.
Example split_two_spaces : split " " "a  b" = ["a"; ""; "b"].
Proof. reflexivity. Qed.

Lemma eqb_empty_false s : s ≠ "" → String.eqb s "" = false.
Proof. intros H. apply String.eqb_neq. exact H. Qed.

(** A header whose second segment is [tok] has [tok] as its token. *)
Lemma header_token_second h tok :
  split " " h !! 1%nat = Some tok → header_token (Some h) = Some tok.
Proof.
  intros H. unfold header_token.
  destruct (String.eqb_spec h "") as [->|_]; [discriminate H|exact H].
Qed.

Section GateProperties.

Variable jwt_verify : Z → string → option Z.

(** The gate answers 401 exactly when the token it extracted is falsy. *)
Lemma gate_falsy now authHeader :
  header_token authHeader = None ∨ header_token authHeader = Some "" →
  authenticateToken jwt_verify now authHeader
  = Respond (mkResponse 401 (ErrorBody "Access token required")).
Proof. unfold authenticateToken. intros [-> | ->]; reflexivity. Qed.

(** A non-empty token goes to [jwt.verify], and its verdict decides. *)
Lemma gate_verify now authHeader tok :
  header_token authHeader = Some tok → tok ≠ "" →
  authenticateToken jwt_verify now authHeader
  = verify_callback (jwt_verify now tok).
Proof.
  unfold authenticateToken. intros -> Hne.
  destruct tok; [congruence | reflexivity].
Qed.

Lemma gate_verify_not_401 now tok :
  verify_callback (jwt_verify now tok)
  ≠ Respond (mkResponse 401 (ErrorBody "Access token required")).
Proof. unfold verify_callback. destruct (jwt_verify now tok); discriminate. Qed.

(** Behind the gate, the router is the handler of the route. *)
Lemma router_authenticated now req userId db :
  authenticateToken jwt_verify now (authorization req) = Next userId →
  todos_router jwt_verify now req db
  = handle now userId (target req) (body req) db.
Proof.
  intros H. unfold todos_router. rewrite H. reflexivity.
Qed.

(** C8, as the code has it: the gate answers 401 "Access token required"
    exactly when the Authorization header is absent or has no non-empty
    second space-separated segment.  Otherwise that second segment, and
    nothing else of the header, is handed to token verification, whose
    verdict decides: the scheme is not inspected and further segments are
    ignored.  In particular every header of the form [<scheme> <token>] has
    its token verified. *)
Theorem gate_reads_second_segment now authHeader :
  (authenticateToken jwt_verify now authHeader
   = Respond (mkResponse 401 (ErrorBody "Access token required"))
   ↔ authHeader = None
     ∨ ∃ h, authHeader = Some h
            ∧ (split " " h !! 1%nat = None ∨ split " " h !! 1%nat = Some ""))
  ∧ (∀ h tok, authHeader = Some h → split " " h !! 1%nat = Some tok →
       tok ≠ "" →
       authenticateToken jwt_verify now authHeader
       = verify_callback (jwt_verify now tok))
  ∧ (∀ h, authHeader = Some h → two_token_format h = true →
       ∃ scheme tok, split " " h = [scheme; tok] ∧ scheme ≠ "" ∧ tok ≠ ""
         ∧ authenticateToken jwt_verify now authHeader
           = verify_callback (jwt_verify now tok)).
Proof.
  assert (Hpass : ∀ h tok, authHeader = Some h →
            split " " h !! 1%nat = Some tok → tok ≠ "" →
            authenticateToken jwt_verify now authHeader
            = verify_callback (jwt_verify now tok)).
  { intros h tok -> Hseg Hne.
    apply gate_verify; [by apply header_token_second | done]. }
  split; [split | split; [exact Hpass|]].
  - intros H401. destruct authHeader as [h|]; [right | by left].
    exists h. split; [done|].
    destruct (split " " h !! 1%nat) as [tok|] eqn:Hseg; [|by left].
    right. f_equal. destruct (String.eqb_spec tok "") as [|Hne]; [done|].
    exfalso. rewrite (Hpass h tok eq_refl Hseg Hne) in H401.
    by apply gate_verify_not_401 in H401.
  - intros [-> | (h & -> & Hseg)]; [by apply gate_falsy; left|].
    apply gate_falsy. unfold header_token.
    destruct (String.eqb_spec h "") as [->|_]; [by right|].
    destruct Hseg as [-> | ->]; [by left | by right].
  - intros h -> Hfmt. unfold two_token_format in Hfmt.
    destruct (split " " h) as [|scheme [|tok [|? ?]]] eqn:Hsplit; try done.
    apply andb_true_iff in Hfmt as [Hs Ht].
    apply negb_true_iff, String.eqb_neq in Hs, Ht.
    exists scheme, tok. repeat split; try done.
    apply (Hpass h tok); [done| by rewrite Hsplit |done].
Qed.

(** C2, where the code departs from it: on every route of the todo router a
    request without Authorization header is answered 401 "Access token
    required", but a request whose header carries a token that fails
    verification (such as [Bearer <garbage>]) is answered 403 "Invalid or
    expired token", whatever made verification fail, and not 401 as the
    comment on [authenticateToken] and the README have it.  Neither request
    reaches a handler or touches the database. *)
Theorem invalid_token_answered_403 now r b db :
  todos_router jwt_verify now (mkRequest None r b) db
  = (mkResponse 401 (ErrorBody "Access token required"), db)
  ∧ (∀ h tok, split " " h !! 1%nat = Some tok → tok ≠ "" →
       jwt_verify now tok = None →
       todos_router jwt_verify now (mkRequest (Some h) r b) db
       = (mkResponse 403 (ErrorBody "Invalid or expired token"), db)).
Proof.
  split; [reflexivity|].
  intros h tok Hseg Hne Hbad. unfold todos_router; simpl.
  rewrite (gate_verify now (Some h) tok); [|by apply header_token_second|done].
  by rewrite Hbad.
Qed.

End GateProperties.

Lemma gate_reads_second_segment_witness :
  authenticateToken Fixture.jwt_verify 100 (Some "Bearer tok1 extra") = Next 1.
Proof.
  exact (proj1 (proj2 (gate_reads_second_segment Fixture.jwt_verify 100
                         (Some "Bearer tok1 extra")))
           "Bearer tok1 extra" "tok1" eq_refl eq_refl
           (λ H : "tok1" = "", eq_ind "tok1"
              (λ s, match s with EmptyString => False | _ => True end) I "" H)).
Defined.

(** C8 as stated fails: a header of three segments is not of the form
    [<scheme> <token>], yet it is not answered 401; its second segment is
    verified and the request goes through. *)
Lemma three_segment_header_passes :
  ¬ (∀ (jwt_verify : Z → string → option Z) now h,
       two_token_format h = false →
       authenticateToken jwt_verify now (Some h)
       = Respond (mkResponse 401 (ErrorBody "Access token required"))).
Proof.
  intros H.
  specialize (H Fixture.jwt_verify 100 "Bearer tok1 extra" eq_refl).
  vm_compute in H. discriminate H.
Qed.

Lemma invalid_token_answered_403_witness :
  todos_router Fixture.jwt_verify 100
    (mkRequest (Some "Bearer garbage") GET_todos Fixture.no_body) Fixture.db
  = (mkResponse 403 (ErrorBody "Invalid or expired token"), Fixture.db).
Proof.
  exact (proj2 (invalid_token_answered_403 Fixture.jwt_verify 100 GET_todos
                  Fixture.no_body Fixture.db)
           "Bearer garbage" "garbage" eq_refl
           (λ H : "garbage" = "", eq_ind "garbage"
              (λ s, match s with EmptyString => False | _ => True end) I "" H)
           eq_refl).
Defined.

(** C2 at the failing input: with no header the status is 401, with
    [Bearer garbage] it is 403. *)
Lemma missing_and_garbage_codes_differ :
  Fixture.jwt_verify 100 "garbage" = None
  ∧ status (todos_router Fixture.jwt_verify 100
              (mkRequest None GET_todos Fixture.no_body) Fixture.db).1
    ≠ status (todos_router Fixture.jwt_verify 100
                (mkRequest (Some "Bearer garbage") GET_todos Fixture.no_body)
                Fixture.db).1.
Proof. split; [reflexivity|]. vm_compute. discriminate. Qed.

(** ** Single-resource routes: id validation, existence, ownership *)

Lemma handle_invalid_id now userId r id b db :
  single_resource r = Some id → parseInt id = None →
  handle now userId r b db
  = (mkResponse 400 (ErrorBody "Invalid todo ID"), db).
Proof.
  intros Hr Hid.
  destruct r; simpl in Hr; simplify_eq; simpl;
    unfold get_todo, put_todo, delete_todo, try_catch; by rewrite Hid.
Qed.

Lemma handle_not_found now userId r id todoId b db :
  single_resource r = Some id → parseInt id = Some todoId →
  todos db !! todoId = None →
  handle now userId r b db
  = (mkResponse 404 (ErrorBody "Todo not found"), db).
Proof.
  intros Hr Hid Hnone.
  destruct r; simpl in Hr; simplify_eq; simpl;
    unfold get_todo, put_todo, delete_todo, try_catch, bind,
      prisma.todo.findUnique;
    by rewrite Hid, Hnone.
Qed.

Lemma handle_forbidden now userId r id todoId b db t :
  single_resource r = Some id → parseInt id = Some todoId →
  todos db !! todoId = Some t → Todo.userId t ≠ userId →
  handle now userId r b db
  = (mkResponse 403 (ErrorBody "Access denied"), db).
Proof.
  intros Hr Hid Hsome Hneq. apply Z.eqb_neq in Hneq.
  destruct r; simpl in Hr; simplify_eq; simpl;
    unfold get_todo, put_todo, delete_todo, try_catch, bind,
      prisma.todo.findUnique;
    by rewrite Hid, Hsome, Hneq.
Qed.

Lemma put_todo_owner now id todoId b db t :
  parseInt id = Some todoId → todos db !! todoId = Some t →
  put_todo now (Todo.userId t) id b db
  = try_catch (update_owned now todoId b) "Failed to update todo" db.
Proof.
  intros Hid Hsome.
  unfold put_todo, update_owned, try_catch, bind at 1, prisma.todo.findUnique.
  by rewrite Hid, Hsome, Z.eqb_refl.
Qed.

(** For the owner the answer is the result or a server error, never 403. *)
Lemma handle_owner_status now r id todoId b db t :
  single_resource r = Some id → parseInt id = Some todoId →
  todos db !! todoId = Some t →
  status (handle now (Todo.userId t) r b db).1 = 200
  ∨ status (handle now (Todo.userId t) r b db).1 = 500.
Proof.
  intros Hr Hid Hsome.
  destruct r; simpl in Hr; simplify_eq; simpl.
  - unfold get_todo, try_catch, bind, prisma.todo.findUnique.
    rewrite Hid, Hsome, Z.eqb_refl. by left.
  - rewrite (put_todo_owner _ _ _ _ _ _ Hid Hsome).
    unfold try_catch.
    destruct (update_owned now todoId b db) as [[r|e] db'] eqn:Hrun;
      [|by right].
    left. unfold update_owned, bind, lift, ret in Hrun.
    destruct (build_updateData _ _); [|done].
    destruct (prisma.todo.update _ _ _ _) as [[u|?] ?]; by simplify_eq.
  - unfold delete_todo, try_catch, bind, prisma.todo.findUnique,
      prisma.todo.delete.
    rewrite Hid, Hsome, Z.eqb_refl. simpl. rewrite Hsome. by left.
Qed.

Section SingleResource.

Variable jwt_verify : Z → string → option Z.

(** C1, as the code has it: on read-one, update and delete by an
    authenticated principal, an id parameter that does not parse is answered
    400; one that parses to an id the Int column can hold and that has no
    resource is answered 404, whoever asks; one that parses to the id of a
    resource of another owner is answered 403; and 403 is the answer in that
    last case only, so never for an id without resource.  The database is
    untouched in all three cases. *)
Theorem existence_before_ownership now req userId id db :
  authenticateToken jwt_verify now (authorization req) = Next userId →
  single_resource (target req) = Some id →
  (parseInt id = None →
     todos_router jwt_verify now req db
     = (mkResponse 400 (ErrorBody "Invalid todo ID"), db))
  ∧ (∀ todoId, parseInt id = Some todoId → fits_Int todoId = true →
       todos db !! todoId = None →
       todos_router jwt_verify now req db
       = (mkResponse 404 (ErrorBody "Todo not found"), db))
  ∧ (∀ todoId t, parseInt id = Some todoId → todos db !! todoId = Some t →
       Todo.userId t ≠ userId →
       todos_router jwt_verify now req db
       = (mkResponse 403 (ErrorBody "Access denied"), db))
  ∧ (status (todos_router jwt_verify now req db).1 = 403 →
       ∃ todoId t, parseInt id = Some todoId ∧ todos db !! todoId = Some t
                   ∧ Todo.userId t ≠ userId).
Proof.
  intros Hauth Hr.
  rewrite (router_authenticated _ _ _ _ _ Hauth).
  split_and!.
  - intros Hid. by eapply handle_invalid_id.
  - intros todoId Hid _ Hnone. by eapply handle_not_found.
  - intros todoId t Hid Hsome Hneq. by eapply handle_forbidden.
  - intros H403. destruct (parseInt id) as [todoId|] eqn:Hid.
    + destruct (todos db !! todoId) as [t|] eqn:Hlook.
      * exists todoId, t. split_and!; try done. intros <-.
        destruct (handle_owner_status now _ _ _ (body req) _ _ Hr Hid Hlook)
          as [H|H]; rewrite H in H403; discriminate.
      * by rewrite (handle_not_found _ _ _ _ _ _ _ Hr Hid Hlook) in H403.
    + by rewrite (handle_invalid_id _ _ _ _ _ _ Hr Hid) in H403.
Qed.

(** C9: on read-one, update and delete, an id parameter that [parseInt]
    turns into NaN is answered 400 "Invalid todo ID"; the answer does not
    depend on the database, which is left as it was. *)
Theorem invalid_id_rejected_first now req userId id db :
  authenticateToken jwt_verify now (authorization req) = Next userId →
  single_resource (target req) = Some id →
  parseInt id = None →
  todos_router jwt_verify now req db
  = (mkResponse 400 (ErrorBody "Invalid todo ID"), db).
Proof.
  intros Hauth Hr Hid.
  rewrite (router_authenticated _ _ _ _ _ Hauth).
  by eapply handle_invalid_id.
Qed.

End SingleResource.

Example gate_lets_bob_in :
  authenticateToken Fixture.jwt_verify 100 (Some "Bearer tok2") = Next 2.
Proof. reflexivity. Qed.

Lemma existence_before_ownership_witness :
  todos_router Fixture.jwt_verify 100
    (mkRequest (Some "Bearer tok2") (DELETE_todo "1") Fixture.no_body)
    Fixture.db
  = (mkResponse 403 (ErrorBody "Access denied"), Fixture.db).
Proof.
  refine (proj1 (proj2 (proj2 (existence_before_ownership Fixture.jwt_verify
            100
            (mkRequest (Some "Bearer tok2") (DELETE_todo "1") Fixture.no_body)
            2 "1" Fixture.db eq_refl eq_refl)))
            1 Fixture.milk eq_refl eq_refl _).
  simpl. lia.
Defined.

(** C1 as stated fails: the id [abc] has no resource, and it is answered
    400, not 404. *)
Lemma unparsable_id_answered_400 :
  ¬ (∀ (jwt_verify : Z → string → option Z) now req userId id db,
       authenticateToken jwt_verify now (authorization req) = Next userId →
       single_resource (target req) = Some id →
       (∀ todoId, parseInt id = Some todoId → todos db !! todoId = None) →
       todos_router jwt_verify now req db
       = (mkResponse 404 (ErrorBody "Todo not found"), db)).
Proof.
  intros H.
  specialize (H Fixture.jwt_verify 100
                (mkRequest (Some "Bearer tok1") (GET_todo "abc")
                           Fixture.no_body)
                1 "abc" Fixture.db eq_refl eq_refl).
  assert (Hno : ∀ todoId, parseInt "abc" = Some todoId →
                          todos Fixture.db !! todoId = None)
    by (intros todoId Hid; discriminate Hid).
  specialize (H Hno). vm_compute in H. discriminate H.
Qed.

Lemma invalid_id_rejected_first_witness :
  todos_router Fixture.jwt_verify 100
    (mkRequest (Some "Bearer tok2") (PUT_todo "abc") Fixture.no_body)
    Fixture.db
  = (mkResponse 400 (ErrorBody "Invalid todo ID"), Fixture.db).
Proof.
  exact (invalid_id_rejected_first Fixture.jwt_verify 100
           (mkRequest (Some "Bearer tok2") (PUT_todo "abc") Fixture.no_body)
           2 "abc" Fixture.db eq_refl eq_refl eq_refl).
Defined.

(** ** Create *)

Lemma trim_empty : trim "" = "".
Proof. reflexivity. Qed.

Lemma post_todo_absent now userId b db :
  Body.title b = JUndefined →
  post_todo now userId b db
  = (mkResponse 400 (ErrorBody "Title is required"), db).
Proof. intros H. unfold post_todo, try_catch, bind. by rewrite H. Qed.

Lemma post_todo_blank now userId b db s :
  Body.title b = JStr s → trim s = "" →
  post_todo now userId b db
  = (mkResponse 400 (ErrorBody "Title is required"), db).
Proof.
  intros H Hblank. unfold post_todo, try_catch, bind. rewrite H. simpl.
  destruct (String.eqb s ""); simpl; [done|]. by rewrite Hblank.
Qed.

Lemma has_user_lookup db e u :
  users db !! e = Some u → has_user db (User.id u) = true.
Proof.
  intros H. apply bool_decide_eq_true. by exists e, u.
Qed.

Lemma post_todo_created now userId b db s :
  Body.title b = JStr s → trim s ≠ "" → todos db !! todo_seq db = None →
  has_user db userId = true →
  post_todo now userId b db
  = let t := Todo.mk (todo_seq db) (trim s) false userId now now in
    (mkResponse 201 (TodoBody t),
     mkDb (users db) (user_seq db) (<[todo_seq db := t]> (todos db))
          (todo_seq db + 1)).
Proof.
  intros H Hne Hfresh Huser. unfold post_todo, try_catch, bind. rewrite H.
  simpl.
  destruct (String.eqb_spec s "") as [->|_]; [by rewrite trim_empty in Hne|].
  simpl. rewrite (eqb_empty_false _ Hne). simpl.
  unfold prisma.todo.create. by rewrite Huser, Hfresh.
Qed.

(** The insert of a todo whose [userId] is no account's id is refused by the
    foreign key; the sequence has moved on. *)
Lemma post_todo_refused now userId b db s :
  Body.title b = JStr s → trim s ≠ "" → has_user db userId = false →
  post_todo now userId b db
  = (mkResponse 500 (ErrorBody "Failed to create todo"),
     mkDb (users db) (user_seq db) (todos db) (todo_seq db + 1)).
Proof.
  intros H Hne Huser. unfold post_todo, try_catch, bind. rewrite H. simpl.
  destruct (String.eqb_spec s "") as [->|_]; [by rewrite trim_empty in Hne|].
  simpl. rewrite (eqb_empty_false _ Hne). simpl.
  unfold prisma.todo.create. by rewrite Huser.
Qed.

Lemma post_todo_falsy now userId b db :
  truthy (Body.title b) = false →
  post_todo now userId b db
  = (mkResponse 400 (ErrorBody "Title is required"), db).
Proof. intros H. unfold post_todo, try_catch, bind. by rewrite H. Qed.

Lemma post_todo_type_error now userId b db :
  truthy (Body.title b) = true → (∀ s, Body.title b ≠ JStr s) →
  post_todo now userId b db
  = (mkResponse 500 (ErrorBody "Failed to create todo"), db).
Proof.
  intros H Hns. unfold post_todo, try_catch, bind. rewrite H. simpl.
  destruct (Body.title b) as [| |x|n|s]; try done. by destruct (Hns s).
Qed.

Lemma db_ok_fresh db : db_ok db → todos db !! todo_seq db = None.
Proof.
  intros Hok. destruct (todos db !! todo_seq db) as [t|] eqn:H; [|done].
  apply Hok in H. lia.
Qed.

Section Todos.

Variable jwt_verify : Z → string → option Z.

(** C5, as the code has it: a create request by an authenticated principal
    whose title is absent or falsy, or is a string that trims to the empty
    string, is answered 400 and nothing is created; a truthy title that is
    not a string is answered 500 and nothing is created; a string title that
    does not trim to the empty string is answered 201 when the principal has
    an account, with a new resource stored under a fresh id, whose owner is
    the principal, whose title is the trimmed input and whose completion flag
    is false; when no account has the principal's id the insert is refused
    by the foreign key, the answer is 500 and no resource is created. *)
Theorem create_binds_owner now req userId db :
  authenticateToken jwt_verify now (authorization req) = Next userId →
  target req = POST_todo →
  db_ok db →
  (truthy (Body.title (body req)) = false
   ∨ (∃ s, Body.title (body req) = JStr s ∧ trim s = "") →
   todos_router jwt_verify now req db
   = (mkResponse 400 (ErrorBody "Title is required"), db))
  ∧ (truthy (Body.title (body req)) = true →
     (∀ s, Body.title (body req) ≠ JStr s) →
     todos_router jwt_verify now req db
     = (mkResponse 500 (ErrorBody "Failed to create todo"), db))
  ∧ (∀ s, Body.title (body req) = JStr s → trim s ≠ "" →
       has_user db userId = true →
       ∃ t db',
         todos_router jwt_verify now req db = (mkResponse 201 (TodoBody t), db')
         ∧ Todo.userId t = userId
         ∧ Todo.title t = trim s
         ∧ Todo.completed t = false
         ∧ todos db !! Todo.id t = None
         ∧ todos db' = <[Todo.id t := t]> (todos db)
         ∧ users db' = users db)
  ∧ (∀ s, Body.title (body req) = JStr s → trim s ≠ "" →
       has_user db userId = false →
       ∃ db',
         todos_router jwt_verify now req db
         = (mkResponse 500 (ErrorBody "Failed to create todo"), db')
         ∧ todos db' = todos db
         ∧ users db' = users db).
Proof.
  intros Hauth Hr Hok.
  rewrite (router_authenticated _ _ _ _ _ Hauth), Hr. simpl.
  split_and!.
  - intros [Hfalsy | (s & Hs & Hblank)].
    + by apply post_todo_falsy.
    + by eapply post_todo_blank.
  - intros Htruthy Hns. by apply post_todo_type_error.
  - intros s Hs Hne Huser.
    rewrite (post_todo_created _ _ _ _ _ Hs Hne (db_ok_fresh _ Hok) Huser).
    eexists _, _. split; [reflexivity|]. simpl.
    repeat split. by apply db_ok_fresh.
  - intros s Hs Hne Huser.
    rewrite (post_todo_refused _ _ _ _ _ Hs Hne Huser).
    by eexists.
Qed.

End Todos.

Lemma create_binds_owner_witness :
  ∃ t db',
    todos_router Fixture.jwt_verify 100
      (mkRequest (Some "Bearer tok1") POST_todo
                 (Body.mk (JStr " buy milk ") JUndefined)) Fixture.accounts
    = (mkResponse 201 (TodoBody t), db')
    ∧ Todo.userId t = 1
    ∧ Todo.title t = "buy milk"
    ∧ Todo.completed t = false
    ∧ todos Fixture.accounts !! Todo.id t = None
    ∧ todos db' = <[Todo.id t := t]> (todos Fixture.accounts)
    ∧ users db' = users Fixture.accounts.
Proof.
  refine (proj1 (proj2 (proj2 (create_binds_owner Fixture.jwt_verify 100
            (mkRequest (Some "Bearer tok1") POST_todo
                       (Body.mk (JStr " buy milk ") JUndefined))
            1 Fixture.accounts eq_refl eq_refl _))) " buy milk " eq_refl _ _).
  - intros i t H. simpl in H. rewrite lookup_empty in H. discriminate H.
  - simpl. discriminate.
  - vm_compute. reflexivity.
Defined.

(** C5 as stated fails: the title [5] is present and is answered 500, with
    nothing created. *)
Lemma numeric_title_creates_nothing :
  ¬ (∀ (jwt_verify : Z → string → option Z) now req userId db,
       authenticateToken jwt_verify now (authorization req) = Next userId →
       target req = POST_todo →
       db_ok db →
       has_user db userId = true →
       status (todos_router jwt_verify now req db).1 = 400
       ∨ ∃ t, (todos_router jwt_verify now req db).1
              = mkResponse 201 (TodoBody t)).
Proof.
  intros H.
  destruct (H Fixture.jwt_verify 100
              (mkRequest (Some "Bearer tok1") POST_todo
                         (Body.mk (JNum 5) JUndefined))
              1 Fixture.accounts eq_refl eq_refl) as [H400 | [t Ht]].
  - intros i t Hi. simpl in Hi. rewrite lookup_empty in Hi. discriminate Hi.
  - by vm_compute.
  - vm_compute in H400. discriminate H400.
  - vm_compute in Ht. discriminate Ht.
Qed.

(** ** Update *)

Lemma build_updateData_typed ot oc :
  build_updateData (from_option JStr JUndefined ot)
                   (from_option JBool JUndefined oc)
  = Ok (prisma.todo.mkUpdateData (trim <$> ot) (JBool <$> oc)).
Proof. by destruct ot, oc. Qed.

(** The row an update leaves behind when the body is well typed. *)
Lemma update_owned_typed now todoId ot oc db t :
  todos db !! todoId = Some t →
  update_owned now todoId (typed_body ot oc) db
  = let t' := Todo.mk (Todo.id t) (default (Todo.title t) (trim <$> ot))
                (default (Todo.completed t) oc)
                (Todo.userId t) (Todo.createdAt t)
                (match ot, oc with
                 | None, None => Todo.updatedAt t
                 | _, _ => now
                 end) in
    (Ok (mkResponse 200 (TodoBody t')),
     mkDb (users db) (user_seq db) (<[todoId := t']> (todos db))
          (todo_seq db)).
Proof.
  intros Hsome. unfold update_owned, typed_body, bind, lift, ret. simpl.
  rewrite build_updateData_typed. unfold prisma.todo.update. simpl.
  destruct ot, oc; simpl; by rewrite Hsome.
Qed.

(** Whatever the body, an update touches one row at most, and in it neither
    the key columns nor a field the body leaves out. *)
Lemma update_owned_frame now todoId b db t :
  todos db !! todoId = Some t →
  ∃ t', todos (update_owned now todoId b db).2 !! todoId = Some t'
    ∧ Todo.id t' = Todo.id t
    ∧ Todo.userId t' = Todo.userId t
    ∧ Todo.createdAt t' = Todo.createdAt t
    ∧ (Body.title b = JUndefined → Todo.title t' = Todo.title t)
    ∧ (Body.completed b = JUndefined → Todo.completed t' = Todo.completed t)
    ∧ (∀ j, j ≠ todoId →
         todos (update_owned now todoId b db).2 !! j = todos db !! j)
    ∧ users (update_owned now todoId b db).2 = users db.
Proof.
  intros Hsome. destruct b as [title completed].
  unfold update_owned, bind, lift, ret, build_updateData, prisma.todo.update.
  destruct title, completed; simpl; rewrite ?Hsome; simpl;
    try (exists t; repeat split; done);
    (eexists; split; [apply lookup_insert_eq|]; simpl;
     repeat split; try done; intros j Hj; by apply lookup_insert_ne).
Qed.

Lemma try_catch_snd m msg db : (try_catch m msg db).2 = (m db).2.
Proof. unfold try_catch. by destruct (m db) as [[?|?] ?]. Qed.

Lemma try_catch_ok m msg db r db' :
  m db = (Ok r, db') → try_catch m msg db = (r, db').
Proof. unfold try_catch. by intros ->. Qed.

Section Update.

Variable jwt_verify : Z → string → option Z.

(** C6: an update by the owner changes, among the fields of the resource,
    only those present in the body: with [completed] alone the title stays,
    with [title] alone the completion flag stays, and in every case the id,
    the owner reference and the creation time stay, as do all other
    resources.  (The modification time is maintained by the store.) *)
Theorem update_changes_present_fields now req userId id todoId db t :
  authenticateToken jwt_verify now (authorization req) = Next userId →
  target req = PUT_todo id →
  parseInt id = Some todoId →
  todos db !! todoId = Some t →
  Todo.userId t = userId →
  ∃ r db' t',
    todos_router jwt_verify now req db = (r, db')
    ∧ todos db' !! todoId = Some t'
    ∧ Todo.id t' = Todo.id t
    ∧ Todo.userId t' = Todo.userId t
    ∧ Todo.createdAt t' = Todo.createdAt t
    ∧ (Body.title (body req) = JUndefined → Todo.title t' = Todo.title t)
    ∧ (Body.completed (body req) = JUndefined →
         Todo.completed t' = Todo.completed t)
    ∧ (∀ j, j ≠ todoId → todos db' !! j = todos db !! j)
    ∧ users db' = users db
    ∧ (∀ c, body req = Body.mk JUndefined (JBool c) →
         r = mkResponse 200 (TodoBody t') ∧ Todo.completed t' = c
         ∧ Todo.title t' = Todo.title t)
    ∧ (∀ s, body req = Body.mk (JStr s) JUndefined →
         r = mkResponse 200 (TodoBody t') ∧ Todo.title t' = trim s
         ∧ Todo.completed t' = Todo.completed t).
Proof.
  intros Hauth Hr Hid Hsome <-.
  rewrite (router_authenticated _ _ _ _ _ Hauth), Hr. simpl.
  rewrite (put_todo_owner _ _ _ _ _ _ Hid Hsome).
  destruct (update_owned_frame now todoId (body req) db t Hsome)
    as (t' & Ht' & Hi & Hu & Hc & Htitle & Hcompl & Hother & Husers).
  rewrite <- (try_catch_snd _ "Failed to update todo") in Ht', Hother, Husers.
  destruct (try_catch _ _ db) as [r db'] eqn:Hrun. simpl in *.
  exists r, db', t'. split_and!; try done.
  - intros c Hb. rewrite Hb in Hrun.
    rewrite (try_catch_ok _ _ _ _ _
               (update_owned_typed now todoId None (Some c) db t Hsome))
      in Hrun.
    simpl in Hrun. simplify_eq. simpl in Ht'. rewrite lookup_insert_eq in Ht'.
    by simplify_eq.
  - intros s Hb. rewrite Hb in Hrun.
    rewrite (try_catch_ok _ _ _ _ _
               (update_owned_typed now todoId (Some s) None db t Hsome))
      in Hrun.
    simpl in Hrun. simplify_eq. simpl in Ht'. rewrite lookup_insert_eq in Ht'.
    by simplify_eq.
Qed.

(** C10: an update by the owner whose title is the empty string or white
    space only succeeds and stores the empty string as title, whereas a
    create request with the same body is answered 400. *)
Theorem update_accepts_blank_title now req userId id todoId db t s oc :
  authenticateToken jwt_verify now (authorization req) = Next userId →
  target req = PUT_todo id →
  parseInt id = Some todoId →
  todos db !! todoId = Some t →
  Todo.userId t = userId →
  body req = typed_body (Some s) oc →
  trim s = "" →
  (∃ t' db',
     todos_router jwt_verify now req db = (mkResponse 200 (TodoBody t'), db')
     ∧ todos db' !! todoId = Some t'
     ∧ Todo.title t' = "")
  ∧ todos_router jwt_verify now
      (mkRequest (authorization req) POST_todo (body req)) db
    = (mkResponse 400 (ErrorBody "Title is required"), db).
Proof.
  intros Hauth Hr Hid Hsome <- Hb Hblank. split.
  - rewrite (router_authenticated _ _ _ _ _ Hauth), Hr. simpl.
    rewrite (put_todo_owner _ _ _ _ _ _ Hid Hsome), Hb.
    rewrite (try_catch_ok _ _ _ _ _
               (update_owned_typed now todoId (Some s) oc db t Hsome)).
    eexists _, _. split; [reflexivity|]. simpl.
    split; [apply lookup_insert_eq | exact Hblank].
  - rewrite (router_authenticated _ now
               (mkRequest (authorization req) POST_todo (body req))
               (Todo.userId t) db Hauth).
    simpl. rewrite Hb. by eapply post_todo_blank.
Qed.

End Update.

Lemma update_changes_present_fields_witness :
  ∃ t',
    todos (todos_router Fixture.jwt_verify 100
             (mkRequest (Some "Bearer tok1") (PUT_todo "1")
                        (Body.mk JUndefined (JBool true))) Fixture.db).2 !! 1
    = Some t'
    ∧ Todo.completed t' = true
    ∧ Todo.title t' = "buy milk"
    ∧ Todo.userId t' = 1.
Proof.
  destruct (update_changes_present_fields Fixture.jwt_verify 100
              (mkRequest (Some "Bearer tok1") (PUT_todo "1")
                         (Body.mk JUndefined (JBool true)))
              1 "1" 1 Fixture.db Fixture.milk
              eq_refl eq_refl eq_refl eq_refl eq_refl)
    as (r & db' & t' & Hrun & Hlook & _ & Hu & _ & _ & _ & _ & _ & Hc & _).
  exists t'. rewrite Hrun. simpl.
  destruct (Hc true eq_refl) as (_ & Hcompleted & Htitle).
  repeat split; assumption.
Defined.

Lemma update_accepts_blank_title_witness :
  (∃ t' db',
     todos_router Fixture.jwt_verify 100
       (mkRequest (Some "Bearer tok1") (PUT_todo "1")
                  (Body.mk (JStr "   ") JUndefined)) Fixture.db
     = (mkResponse 200 (TodoBody t'), db')
     ∧ todos db' !! 1 = Some t'
     ∧ Todo.title t' = "")
  ∧ todos_router Fixture.jwt_verify 100
      (mkRequest (Some "Bearer tok1") POST_todo
                 (Body.mk (JStr "   ") JUndefined)) Fixture.db
    = (mkResponse 400 (ErrorBody "Title is required"), Fixture.db).
Proof.
  exact (update_accepts_blank_title Fixture.jwt_verify 100
           (mkRequest (Some "Bearer tok1") (PUT_todo "1")
                      (Body.mk (JStr "   ") JUndefined))
           1 "1" 1 Fixture.db Fixture.milk "   " None
           eq_refl eq_refl eq_refl eq_refl eq_refl eq_refl eq_refl).
Defined.

(** ** List *)

#[local] Instance newer_first_total : Total newer_first.
Proof. intros a b. unfold newer_first. lia. Qed.

#[local] Instance newer_first_trans : Transitive newer_first.
Proof. intros a b c. unfold newer_first. lia. Qed.

Lemma elem_of_rows (m : gmap Z Todo.t) (t : Todo.t) :
  t ∈ snd <$> map_to_list m ↔ ∃ i, m !! i = Some t.
Proof.
  rewrite list_elem_of_fmap. split.
  - intros ([i t'] & -> & Hin). exists i. by apply elem_of_map_to_list.
  - intros (i & Hi). exists (i, t). split; [done|].
    by apply elem_of_map_to_list.
Qed.

Lemma get_todos_run userId db :
  get_todos userId db
  = (mkResponse 200
       (TodosBody (merge_sort newer_first
                     (filter (λ t, Todo.userId t = userId)
                             (snd <$> map_to_list (todos db))))), db).
Proof. reflexivity. Qed.

Section List.

Variable jwt_verify : Z → string → option Z.

(** C7: a list request by an authenticated principal is answered with the
    resources owned by the principal, each once and no other, the newest
    creation time first; the database is left as it was. *)
Theorem list_scoped_newest_first now req userId db :
  authenticateToken jwt_verify now (authorization req) = Next userId →
  target req = GET_todos →
  ∃ l,
    todos_router jwt_verify now req db = (mkResponse 200 (TodosBody l), db)
    ∧ l ≡ₚ filter (λ t, Todo.userId t = userId)
              (snd <$> map_to_list (todos db))
    ∧ (∀ t, t ∈ l ↔ (∃ i, todos db !! i = Some t) ∧ Todo.userId t = userId)
    ∧ StronglySorted (λ a b, Todo.createdAt b ≤ Todo.createdAt a) l.
Proof.
  intros Hauth Hr.
  rewrite (router_authenticated _ _ _ _ _ Hauth), Hr. simpl.
  rewrite get_todos_run. eexists. split; [reflexivity|].
  split; [apply merge_sort_Permutation|]. split.
  - intros t. rewrite merge_sort_Permutation, list_elem_of_filter.
    rewrite elem_of_rows. tauto.
  - apply (StronglySorted_merge_sort newer_first).
Qed.

End List.

Lemma list_scoped_newest_first_witness :
  ∃ l,
    todos_router Fixture.jwt_verify 100
      (mkRequest (Some "Bearer tok1") GET_todos Fixture.no_body) Fixture.db
    = (mkResponse 200 (TodosBody l), Fixture.db)
    ∧ l ≡ₚ filter (λ t, Todo.userId t = 1)
              (snd <$> map_to_list (todos Fixture.db))
    ∧ (∀ t, t ∈ l ↔ (∃ i, todos Fixture.db !! i = Some t) ∧ Todo.userId t = 1)
    ∧ StronglySorted (λ a b, Todo.createdAt b ≤ Todo.createdAt a) l.
Proof.
  exact (list_scoped_newest_first Fixture.jwt_verify 100
           (mkRequest (Some "Bearer tok1") GET_todos Fixture.no_body)
           1 Fixture.db eq_refl eq_refl).
Defined.

Example list_of_alice :
  (get_todos 1 Fixture.db).1 = mkResponse 200 (TodosBody [Fixture.milk]).
Proof. vm_compute. reflexivity. Qed.

(** ** Login and signup *)

Lemma truthy_JStr_true s : s ≠ "" → truthy (JStr s) = true.
Proof. intros H. simpl. by rewrite (eqb_empty_false _ H). Qed.

Section Auth.

Variable bcrypt_hash : string → string → string.
Variable bcrypt_compare : string → string → bool.
Variable jwt_sign : Z → Z → string.

Lemma login_unknown now e p db :
  e ≠ "" → p ≠ "" → users db !! e = None →
  login bcrypt_compare jwt_sign now (Credentials.mk (JStr e) (JStr p)) db
  = (mkResponse 401 (ErrorBody "Invalid credentials"), db).
Proof.
  intros He Hp Hnone. unfold login, try_catch, bind. cbn [Credentials.email
    Credentials.password].
  rewrite (truthy_JStr_true _ He), (truthy_JStr_true _ Hp). simpl.
  by rewrite Hnone.
Qed.

Lemma login_wrong_password now e p db u :
  e ≠ "" → p ≠ "" → users db !! e = Some u →
  bcrypt_compare p (User.password u) = false →
  login bcrypt_compare jwt_sign now (Credentials.mk (JStr e) (JStr p)) db
  = (mkResponse 401 (ErrorBody "Invalid credentials"), db).
Proof.
  intros He Hp Hsome Hbad. unfold login, try_catch, bind. cbn [Credentials.email
    Credentials.password].
  rewrite (truthy_JStr_true _ He), (truthy_JStr_true _ Hp). simpl.
  by rewrite Hsome, Hbad.
Qed.

(** One and the same failing login request is answered alike by a store
    that does not know the identifier and by one that knows it under
    another password. *)
Lemma login_failure_hides_store now e p db1 db2 u :
  users db1 !! e = Some u → bcrypt_compare p (User.password u) = false →
  users db2 !! e = None →
  (login bcrypt_compare jwt_sign now (Credentials.mk (JStr e) (JStr p)) db1).1
  = (login bcrypt_compare jwt_sign now (Credentials.mk (JStr e) (JStr p)) db2).1.
Proof.
  intros Hsome Hbad Hnone. unfold login, try_catch, bind.
  cbn [Credentials.email Credentials.password].
  destruct (truthy (JStr e)), (truthy (JStr p)); simpl; try done.
  by rewrite Hsome, Hnone, Hbad.
Qed.


(** A truthy password that is not a string gets past the guard: it is
    answered 401 for an unknown identifier, while for a known one
    [bcrypt.compare] throws and the answer is 500. *)
Lemma login_password_not_a_string now e password db :
  e ≠ "" → truthy password = true → (∀ p, password ≠ JStr p) →
  login bcrypt_compare jwt_sign now (Credentials.mk (JStr e) password) db
  = match users db !! e with
    | Some _ =>
        (mkResponse 500 (ErrorBody "Something went wrong during login"), db)
    | None => (mkResponse 401 (ErrorBody "Invalid credentials"), db)
    end.
Proof.
  intros He Ht Hns. unfold login, try_catch, bind.
  cbn [Credentials.email Credentials.password].
  rewrite (truthy_JStr_true _ He), Ht. simpl.
  destruct (users db !! e) as [u|]; [|done]. simpl.
  destruct password as [| |x|n|p]; try done. by destruct (Hns p).
Qed.


(** C4, as the code has it: a signup request whose identifier is already in
    the Account store is answered with a 400 client error and leaves the
    store as it was (same accounts, same hashes, no new row).  The error is
    "Email and password are required" when the identifier is empty or the
    password is absent or falsy, "Password must be at least 6 characters"
    when the password is a non-empty string of fewer than 6 characters, and
    "User already exists" in every other case: a string password of at least
    6 characters, or a truthy password that is no string. *)
Theorem signup_existing_keeps_store now salt req db e u :
  Credentials.email req = JStr e →
  users db !! e = Some u →
  (signup bcrypt_hash jwt_sign now salt req db).2 = db
  ∧ status (signup bcrypt_hash jwt_sign now salt req db).1 = 400
  ∧ (e = "" ∨ truthy (Credentials.password req) = false →
       (signup bcrypt_hash jwt_sign now salt req db).1
       = mkResponse 400 (ErrorBody "Email and password are required"))
  ∧ (∀ p, e ≠ "" → Credentials.password req = JStr p → p ≠ "" →
       (String.length p < 6)%nat →
       (signup bcrypt_hash jwt_sign now salt req db).1
       = mkResponse 400 (ErrorBody "Password must be at least 6 characters"))
  ∧ (e ≠ "" → truthy (Credentials.password req) = true →
     (∀ p, Credentials.password req = JStr p → (6 ≤ String.length p)%nat) →
       (signup bcrypt_hash jwt_sign now salt req db).1
       = mkResponse 400 (ErrorBody "User already exists")).
Proof.
  intros He Hsome. destruct req as [email password]. simpl in He. subst email.
  unfold signup, try_catch, bind. cbn [Credentials.email Credentials.password].
  split_and!.
  - destruct (truthy (JStr e)), (truthy password); simpl; try done;
      destruct (length_lt password 6); simpl; try done; by rewrite Hsome.
  - destruct (truthy (JStr e)), (truthy password); simpl; try done;
      destruct (length_lt password 6); simpl; try done; by rewrite Hsome.
  - intros [-> | ->]; [done|]. by rewrite orb_true_r.
  - intros p Hne -> Hp Hlen.
    rewrite (truthy_JStr_true _ Hne), (truthy_JStr_true _ Hp). simpl.
    destruct (Nat.ltb_spec (String.length p) 6) as [_|?]; [done|lia].
  - intros Hne Ht Hlen. rewrite (truthy_JStr_true _ Hne), Ht. simpl.
    assert (Hlt : length_lt password 6 = false).
    { destruct password as [| |x|n|p]; try done. simpl.
      apply Nat.ltb_ge. by apply Hlen. }
    rewrite Hlt. simpl. by rewrite Hsome.
Qed.

End Auth.



Lemma signup_existing_keeps_store_witness :
  (signup Fixture.bcrypt_hash Fixture.jwt_sign 100 "salt"
     (Credentials.mk (JStr "a@x.com") (JStr "secret2")) Fixture.db).1
  = mkResponse 400 (ErrorBody "User already exists").
Proof.
  refine (proj2 (proj2 (proj2 (proj2 (signup_existing_keeps_store
            Fixture.bcrypt_hash Fixture.jwt_sign 100 "salt"
            (Credentials.mk (JStr "a@x.com") (JStr "secret2")) Fixture.db
            "a@x.com" Fixture.alice eq_refl eq_refl)))) _ eq_refl _).
  - discriminate.
  - intros p Hp. injection Hp as <-. simpl. lia.
Defined.

(** C4 as stated fails: with a password of three characters the request for
    a known identifier is turned down by validation, not as AlreadyExists. *)
Lemma short_password_not_already_exists :
  ¬ (∀ now salt db e p u,
       users db !! e = Some u →
       (signup Fixture.bcrypt_hash Fixture.jwt_sign now salt
          (Credentials.mk (JStr e) (JStr p)) db).1
       = mkResponse 400 (ErrorBody "User already exists")).
Proof.
  intros H.
  specialize (H 100 "salt" Fixture.db "a@x.com" "abc" Fixture.alice eq_refl).
  vm_compute in H. discriminate H.
Qed.

(** ** The store invariant *)

Lemma db_ok_empty : db_ok empty_db.
Proof. intros i t H. simpl in H. by rewrite lookup_empty in H. Qed.

Lemma db_ok_same_todos db db' :
  todos db' = todos db → todo_seq db' = todo_seq db → db_ok db → db_ok db'.
Proof. unfold db_ok. intros -> ->. done. Qed.

Lemma create_preserves_db_ok now title userId db :
  db_ok db → db_ok (prisma.todo.create now title userId db).2.
Proof.
  intros Hok. unfold prisma.todo.create.
  destruct (negb (has_user db userId));
    [intros i t H; simpl in *; apply Hok in H; lia|].
  destruct (todos db !! todo_seq db) as [t0|] eqn:Hfresh; simpl.
  - intros i t H. simpl in *. apply Hok in H. lia.
  - intros i t H. simpl in *.
    destruct (decide (i = todo_seq db)) as [->|Hne]; [lia|].
    rewrite lookup_insert_ne in H by done. apply Hok in H. lia.
Qed.

Lemma update_preserves_db_ok now todoId data db :
  db_ok db → db_ok (prisma.todo.update now todoId data db).2.
Proof.
  intros Hok. unfold prisma.todo.update.
  destruct (todos db !! todoId) as [t0|] eqn:Hsome;
    destruct (prisma.todo.data_completed data) as [[]|]; simpl; try done;
    intros i t H; simpl in *;
    (destruct (decide (i = todoId)) as [->|Hne];
     [by eapply Hok | rewrite lookup_insert_ne in H by done; by eapply Hok]).
Qed.

Lemma delete_preserves_db_ok todoId db :
  db_ok db → db_ok (prisma.todo.delete todoId db).2.
Proof.
  intros Hok. unfold prisma.todo.delete.
  destruct (todos db !! todoId) as [t0|] eqn:Hsome; simpl; [|done].
  intros i t H. simpl in *.
  destruct (decide (i = todoId)) as [->|Hne].
  - by rewrite lookup_delete_eq in H.
  - rewrite lookup_delete_ne in H by done. by eapply Hok.
Qed.

(** Every handler of the todo router keeps the sequence ahead of the keys. *)
Lemma handle_preserves_db_ok now userId r b db :
  db_ok db → db_ok (handle now userId r b db).2.
Proof.
  intros Hok. destruct r; cbn [handle];
    unfold get_todos, get_todo, post_todo, put_todo, delete_todo;
    rewrite try_catch_snd; unfold bind, ret, lift, prisma.todo.findUnique,
      prisma.todo.findMany.
  - done.
  - destruct (parseInt id); [|done].
    destruct (todos db !! z); [|done]. by destruct (negb _).
  - destruct (negb (truthy (Body.title b))); simpl.
    + done.
    + destruct (js_trim (Body.title b)) as [s|e]; simpl; [|done].
      destruct (String.eqb s ""); simpl; [done|].
      pose proof (create_preserves_db_ok now s userId db Hok) as Hc.
      by destruct (prisma.todo.create now s userId db) as [[?|?] ?].
  - destruct (parseInt id); [|done].
    destruct (todos db !! z); [|done]. destruct (negb _); [done|].
    destruct (build_updateData _ _) as [d|e]; simpl; [|done].
    pose proof (update_preserves_db_ok now z d db Hok) as Hu.
    by destruct (prisma.todo.update now z d db) as [[?|?] ?].
  - destruct (parseInt id); [|done].
    destruct (todos db !! z); [|done]. destruct (negb _); [done|].
    pose proof (delete_preserves_db_ok z db Hok) as Hd.
    by destruct (prisma.todo.delete z db) as [[?|?] ?].
Qed.

Lemma todos_router_preserves_db_ok jwt_verify now req db :
  db_ok db → db_ok (todos_router jwt_verify now req db).2.
Proof.
  intros Hok. unfold todos_router.
  destruct (authenticateToken _ _ _); [done|].
  by apply handle_preserves_db_ok.
Qed.

Lemma login_keeps_db bcrypt_compare jwt_sign now req db :
  (login bcrypt_compare jwt_sign now req db).2 = db.
Proof.
  unfold login. rewrite try_catch_snd. unfold bind, ret, lift.
  destruct (negb _ || negb _); [done|].
  unfold prisma.user.findUnique.
  destruct (Credentials.email req); try done. simpl.
  destruct (users db !! s); [|done].
  destruct (bcrypt_compare_js _ _ _) as [[]|]; done.
Qed.

Lemma signup_preserves_db_ok bcrypt_hash jwt_sign now salt req db :
  db_ok db → db_ok (signup bcrypt_hash jwt_sign now salt req db).2.
Proof.
  intros Hok. unfold signup. rewrite try_catch_snd. unfold bind, ret, lift.
  destruct (negb _ || negb _); [done|].
  destruct (length_lt _ _); [done|].
  unfold prisma.user.findUnique, prisma.user.create.
  destruct (Credentials.email req); try done. simpl.
  destruct (users db !! s) eqn:Hs; [done|].
  destruct (bcrypt_hash_js _ _ _); simpl; [|done].
  rewrite Hs. simpl. by eapply db_ok_same_todos.
Qed.

(** ** The end-to-end scenario of the specification *)

Example scenario_runs :
  scenario
  = [ mkResponse 201 (AuthBody "User created successfully" "tok1" 1 "u1");
      mkResponse 201 (TodoBody (Todo.mk 1 "buy milk" false 1 101 101));
      mkResponse 200 (TodoBody (Todo.mk 1 "buy milk" true 1 101 101));
      mkResponse 200 (MessageBody "Todo deleted successfully");
      mkResponse 404 (ErrorBody "Todo not found") ].
Proof. vm_compute. reflexivity. Qed.

Example Number_toString_samples :
  Number_toString 0 = "0" ∧ Number_toString 7 = "7"
  ∧ Number_toString 1203 = "1203" ∧ Number_toString (-45) = "-45".
Proof. repeat split. Qed.

(** ** Ids in the URL: [String(id)] read back by [parseInt] *)

Lemma digit_cases d :
  0 ≤ d ≤ 9 →
  d = 0 ∨ d = 1 ∨ d = 2 ∨ d = 3 ∨ d = 4 ∨ d = 5 ∨ d = 6 ∨ d = 7 ∨ d = 8
  ∨ d = 9.
Proof. lia. Qed.

Ltac each_digit H :=
  apply digit_cases in H;
  repeat (destruct H as [H|H]; [subst|]); [..|subst].

Lemma digit_value_digit_char d :
  0 ≤ d ≤ 9 → digit_value 10 (digit_char d) = Some d.
Proof. intros H. each_digit H; reflexivity. Qed.

Lemma digits_app fuel n s rest :
  (digits fuel n s ++ rest)%string = digits fuel n (s ++ rest)%string.
Proof.
  revert n s. induction fuel as [|fuel IH]; intros n s; simpl; [done|].
  destruct (n <? 10); [done|]. by rewrite IH.
Qed.

(** Reading the digits of [n] back yields [n], whatever follows. *)
Lemma parse_digits_digits fuel n s :
  0 ≤ n < Z.of_nat fuel →
  parse_digits 10 None (digits fuel n s) = parse_digits 10 (Some n) s.
Proof.
  revert n s. induction fuel as [|fuel IH]; intros n s Hn; [lia|].
  simpl digits. destruct (Z.ltb_spec n 10) as [Hlt|Hge].
  - cbn [parse_digits]. rewrite digit_value_digit_char.
    + simpl. by rewrite Z.mod_small by lia.
    + pose proof (Z.mod_pos_bound n 10). lia.
  - rewrite IH.
    + cbn [parse_digits]. rewrite digit_value_digit_char.
      * simpl. f_equal. f_equal. symmetry. apply Z.div_mod. lia.
      * pose proof (Z.mod_pos_bound n 10). lia.
    + split; [apply Z.div_pos; lia|].
      assert (n / 10 < n) by (apply Z.div_lt; lia). lia.
Qed.

(** The first character is a digit, and it is [0] for [n = 0] only. *)
Lemma digits_head fuel n s :
  0 ≤ n < Z.of_nat fuel →
  ∃ d r, 0 ≤ d ≤ 9 ∧ (d = 0 → n = 0 ∧ r = s)
         ∧ digits fuel n s = String (digit_char d) r.
Proof.
  revert n s. induction fuel as [|fuel IH]; intros n s Hn; [lia|].
  simpl digits. destruct (Z.ltb_spec n 10) as [Hlt|Hge].
  - exists (n mod 10), s. rewrite Z.mod_small by lia. repeat split; lia.
  - destruct (IH (n / 10) (String (digit_char (n mod 10)) s))
      as (d & r & Hd & Hzero & Heq).
    + split; [apply Z.div_pos; lia|].
      assert (n / 10 < n) by (apply Z.div_lt; lia). lia.
    + exists d, r. split; [done|]. split; [|done].
      intros Hd0. destruct (Hzero Hd0) as [Hdiv _].
      assert (1 ≤ n / 10) by (apply Z.div_le_lower_bound; lia). lia.
Qed.

Lemma parse_digits_stop n rest :
  ends_number rest = true → parse_digits 10 (Some n) rest = Some n.
Proof.
  destruct rest as [|c r]; [done|]. simpl.
  by destruct (digit_value 10 c).
Qed.

Lemma strip_radix_zero rest :
  ends_number rest = true →
  strip_radix (String (digit_char 0) rest) = (10, String (digit_char 0) rest).
Proof.
  destruct rest as [|c r]; [done|]. intros H. simpl in H.
  destruct (digit_value 10 c); [done|].
  apply andb_true_iff in H as [Hx HX].
  apply negb_true_iff in Hx, HX.
  destruct c as [[] [] [] [] [] [] [] []]; try reflexivity; discriminate.
Qed.

(** An unsigned decimal number goes through the sign and radix steps of
    [parseInt] untouched. *)
Lemma parseInt_decimal d r rest :
  0 ≤ d ≤ 9 → (d = 0 → r = rest) → ends_number rest = true →
  parseInt (String (digit_char d) r)
  = parse_digits 10 None (String (digit_char d) r)
  ∧ parseInt (String "-" (String (digit_char d) r))
    = match parse_digits 10 None (String (digit_char d) r) with
      | Some n => Some (- n)
      | None => None
      end.
Proof.
  intros Hd Hzero Hrest. unfold parseInt.
  assert (Hradix : strip_radix (String (digit_char d) r)
                   = (10, String (digit_char d) r)).
  { destruct (decide (d = 0)) as [->|Hne].
    - rewrite (Hzero eq_refl). by apply strip_radix_zero.
    - each_digit Hd; try done; reflexivity. }
  split.
  - assert (Hts : strip_sign (trimStart (String (digit_char d) r))
                  = (1, String (digit_char d) r))
      by (each_digit Hd; reflexivity).
    rewrite Hts, Hradix.
    destruct (parse_digits 10 None _); [|done]. f_equal. lia.
  - change (strip_sign (trimStart (String "-" (String (digit_char d) r))))
      with (-1, String (digit_char d) r).
    cbv beta iota. rewrite Hradix.
    destruct (parse_digits 10 None _); [|done]. f_equal; lia.
Qed.

(** The digits of [n], and nothing after them, read back as [n]. *)
Lemma parseInt_digits_back n : parseInt (Number_toString n) = Some n.
Proof.
  unfold Number_toString.
  destruct (Z.ltb_spec n 0) as [Hneg|Hpos].
  - destruct (digits_head (S (Z.to_nat (- n))) (- n) "")
      as (d & r & Hd & Hzero & Heq); [lia|].
    rewrite Heq.
    rewrite (proj2 (parseInt_decimal d r "" Hd (λ H, proj2 (Hzero H)) eq_refl)).
    rewrite <- Heq, parse_digits_digits by lia. simpl. f_equal. lia.
  - destruct (digits_head (S (Z.to_nat n)) n "")
      as (d & r & Hd & Hzero & Heq); [lia|].
    rewrite Heq.
    rewrite (proj1 (parseInt_decimal d r "" Hd (λ H, proj2 (Hzero H)) eq_refl)).
    by rewrite <- Heq, parse_digits_digits by lia.
Qed.

(** X1: the id a client writes into the URL with [String(id)] is the id the
    handlers read with [parseInt], whatever the sign, for every integer a
    JavaScript number holds exactly (up to 2^53 - 1 in absolute value); the
    same holds when the number is followed by other characters, as long as
    the first of them is neither a decimal digit nor [x] or [X]. *)
Theorem parseInt_Number_toString n rest :
  safe_integer n = true →
  ends_number rest = true →
  parseInt (Number_toString n ++ rest) = Some n.
Proof.
  intros _ Hrest. unfold Number_toString.
  destruct (Z.ltb_spec n 0) as [Hneg|Hpos].
  - change (String "-" ?s ++ rest)%string with (String "-" (s ++ rest)%string).
    rewrite digits_app. change ("" ++ rest)%string with rest.
    destruct (digits_head (S (Z.to_nat (- n))) (- n) rest)
      as (d & r & Hd & Hzero & Heq); [lia|].
    rewrite Heq.
    rewrite (proj2 (parseInt_decimal d r rest Hd (λ H, proj2 (Hzero H)) Hrest)).
    rewrite <- Heq, parse_digits_digits by lia.
    rewrite parse_digits_stop by done. f_equal. lia.
  - rewrite digits_app. change ("" ++ rest)%string with rest.
    destruct (digits_head (S (Z.to_nat n)) n rest)
      as (d & r & Hd & Hzero & Heq); [lia|].
    rewrite Heq.
    rewrite (proj1 (parseInt_decimal d r rest Hd (λ H, proj2 (Hzero H)) Hrest)).
    rewrite <- Heq, parse_digits_digits by lia.
    by apply parse_digits_stop.
Qed.

Lemma parseInt_Number_toString_witness :
  parseInt (Number_toString 42 ++ "abc") = Some 42.
Proof. exact (parseInt_Number_toString 42 "abc" eq_refl eq_refl). Defined.

Example parseInt_zero_x : parseInt (Number_toString 0 ++ "x1f") = Some 31.
Proof. reflexivity. Qed.

(** ** What a request does to the store *)

Ltac error_case :=
  split_and!; try done; left;
  split_and!;
    [done | by left
    | left; eexists; split_and!; [reflexivity | done | simpl; tauto]].

(** The store after a request to a handler of the todo router: accounts and
    their sequence are as before, and the todos are as before unless the
    request is a create, update or delete that succeeded, which writes one
    row of the principal.  A request that writes nothing is answered with an
    error, or is a read that succeeded. *)
Lemma handle_store now userId r b db :
  users (handle now userId r b db).2 = users db
  ∧ user_seq (handle now userId r b db).2 = user_seq db
  ∧ ((todos (handle now userId r b db).2 = todos db
      ∧ (todo_seq (handle now userId r b db).2 = todo_seq db
         ∨ todo_seq (handle now userId r b db).2 = todo_seq db + 1
           ∧ status (handle now userId r b db).1 = 500)
      ∧ (error_answer (handle now userId r b db).1
         ∨ r = GET_todos
         ∨ ∃ id todoId t, r = GET_todo id ∧ parseInt id = Some todoId
             ∧ todos db !! todoId = Some t ∧ Todo.userId t = userId
             ∧ (handle now userId r b db).1 = mkResponse 200 (TodoBody t)))
     ∨ (∃ s, r = POST_todo ∧ Body.title b = JStr s
          ∧ todos db !! todo_seq db = None
          ∧ has_user db userId = true
          ∧ handle now userId r b db
            = let t := Todo.mk (todo_seq db) (trim s) false userId now now in
              (mkResponse 201 (TodoBody t),
               mkDb (users db) (user_seq db) (<[todo_seq db := t]> (todos db))
                    (todo_seq db + 1)))
     ∨ (∃ id todoId t t', r = PUT_todo id ∧ parseInt id = Some todoId
          ∧ todos db !! todoId = Some t ∧ Todo.userId t = userId
          ∧ Todo.id t' = Todo.id t ∧ Todo.userId t' = userId
          ∧ (Todo.title t' = Todo.title t
             ∨ ∃ s, Body.title b = JStr s ∧ Todo.title t' = trim s)
          ∧ handle now userId r b db
            = (mkResponse 200 (TodoBody t'),
               mkDb (users db) (user_seq db) (<[todoId := t']> (todos db))
                    (todo_seq db)))
     ∨ (∃ id todoId t, r = DELETE_todo id ∧ parseInt id = Some todoId
          ∧ todos db !! todoId = Some t ∧ Todo.userId t = userId
          ∧ handle now userId r b db
            = (mkResponse 200 (MessageBody "Todo deleted successfully"),
               mkDb (users db) (user_seq db) (base.delete todoId (todos db))
                    (todo_seq db)))).
Proof.
  destruct r as [|id| |id|id]; cbn [handle].
  - rewrite get_todos_run. simpl. split_and!; try done.
    left. split_and!; [done | by left | by right; left].
  - unfold get_todo, try_catch, bind, prisma.todo.findUnique.
    destruct (parseInt id) as [todoId|] eqn:Hid; simpl; [|error_case].
    destruct (todos db !! todoId) as [t|] eqn:Ht; simpl; [|error_case].
    destruct (Z.eqb_spec (Todo.userId t) userId) as [Hown|?]; simpl;
      [|error_case].
    split_and!; try done. left. split_and!; [done | by left|].
    right. right. by exists id, todoId, t.
  - unfold post_todo, try_catch, bind, lift, ret.
    destruct (Body.title b) as [| |c|n|s] eqn:Htitle; simpl;
      try error_case.
    + destruct c; simpl; error_case.
    + destruct (n =? 0); simpl; error_case.
    + destruct (String.eqb s ""); simpl; [error_case|].
      destruct (String.eqb (trim s) ""); simpl; [error_case|].
      unfold prisma.todo.create.
      destruct (has_user db userId) eqn:Huser; simpl.
      2: { split_and!; try done. left. split_and!; [done | by right|].
           left. eexists. split_and!; [reflexivity | done | simpl; tauto]. }
      destruct (todos db !! todo_seq db) eqn:Hfresh; simpl.
      * split_and!; try done. left. split_and!; [done | by right|].
        left. eexists. split_and!; [reflexivity | done | simpl; tauto].
      * split_and!; try done. right. left. by exists s.
  - unfold put_todo, try_catch, bind, prisma.todo.findUnique.
    destruct (parseInt id) as [todoId|] eqn:Hid; simpl; [|error_case].
    destruct (todos db !! todoId) as [t|] eqn:Ht; simpl; [|error_case].
    destruct (Z.eqb_spec (Todo.userId t) userId) as [Hown|?]; simpl;
      [|error_case].
    unfold lift, ret, build_updateData, prisma.todo.update.
    destruct (Body.title b) as [| |c|n|s] eqn:Htitle,
             (Body.completed b) as [| |c'|n'|s']; simpl; rewrite ?Ht; simpl;
      try error_case;
      (split_and!; try done; right; right; left;
       eexists id, todoId, t, _; split_and!; [..|reflexivity];
       try done; simpl; eauto).
  - unfold delete_todo, try_catch, bind, prisma.todo.findUnique.
    destruct (parseInt id) as [todoId|] eqn:Hid; simpl; [|error_case].
    destruct (todos db !! todoId) as [t|] eqn:Ht; simpl; [|error_case].
    destruct (Z.eqb_spec (Todo.userId t) userId) as [Hown|?]; simpl;
      [|error_case].
    unfold prisma.todo.delete. rewrite Ht. simpl.
    split_and!; try done. right. right. right. by exists id, todoId, t.
Qed.

Lemma todos_router_keeps_users jwt_verify now req db :
  users (todos_router jwt_verify now req db).2 = users db.
Proof.
  unfold todos_router. destruct (authenticateToken _ _ _); [done|].
  apply handle_store.
Qed.

(** Signup with an identifier the store knows. *)
Lemma signup_existing bcrypt_hash jwt_sign now salt req db e u :
  Credentials.email req = JStr e →
  users db !! e = Some u →
  (signup bcrypt_hash jwt_sign now salt req db).2 = db
  ∧ status (signup bcrypt_hash jwt_sign now salt req db).1 = 400
  ∧ (∀ p, Credentials.password req = JStr p → e ≠ "" →
       (6 ≤ String.length p)%nat →
       (signup bcrypt_hash jwt_sign now salt req db).1
       = mkResponse 400 (ErrorBody "User already exists")).
Proof.
  intros He Hsome. destruct req as [email password]. simpl in He. subst email.
  unfold signup, try_catch, bind. cbn [Credentials.email Credentials.password].
  split_and!.
  - destruct (truthy (JStr e)), (truthy password); simpl; try done;
      destruct (length_lt password 6); simpl; try done; by rewrite Hsome.
  - destruct (truthy (JStr e)), (truthy password); simpl; try done;
      destruct (length_lt password 6); simpl; try done; by rewrite Hsome.
  - intros p -> Hne Hlen. rewrite (truthy_JStr_true _ Hne).
    assert (Hp : p ≠ "") by (intros ->; simpl in Hlen; lia).
    rewrite (truthy_JStr_true _ Hp). simpl.
    destruct (Nat.ltb_spec (String.length p) 6) as [Hlt|_]; [lia|].
    simpl. by rewrite Hsome.
Qed.

(** ** Accounts: signup, login and what they do to the store *)

Section Accounts.

Variable bcrypt_hash : string → string → string.
Variable bcrypt_compare : string → string → bool.
Variable jwt_sign : Z → Z → string.

Lemma long_password_nonempty p : (6 ≤ String.length p)%nat → p ≠ "".
Proof. intros H ->. simpl in H. lia. Qed.

(** The account a successful signup stores. *)
Lemma signup_created now salt e p db :
  e ≠ "" → (6 ≤ String.length p)%nat → users db !! e = None →
  signup bcrypt_hash jwt_sign now salt (Credentials.mk (JStr e) (JStr p)) db
  = let u := User.mk (user_seq db) e (bcrypt_hash salt p) now now in
    (mkResponse 201
       (AuthBody "User created successfully" (jwt_sign (user_seq db) now)
                 (user_seq db) e),
     mkDb (<[e := u]> (users db)) (user_seq db + 1) (todos db) (todo_seq db)).
Proof.
  intros He Hlen Hnone. unfold signup, try_catch, bind.
  cbn [Credentials.email Credentials.password].
  rewrite (truthy_JStr_true _ He),
    (truthy_JStr_true _ (long_password_nonempty _ Hlen)).
  simpl. destruct (Nat.ltb_spec (String.length p) 6) as [?|_]; [lia|].
  simpl. by rewrite Hnone, Hnone.
Qed.

(** X2: after a successful signup, a login with the same identifier and
    password succeeds, for the same account id and identifier, provided
    bcrypt accepts the password against the hash it made of it; a password
    bcrypt does not accept against that hash is answered 401. *)
Theorem signup_then_login now now' salt e p db :
  e ≠ "" → (6 ≤ String.length p)%nat → users db !! e = None →
  bcrypt_compare p (bcrypt_hash salt p) = true →
  ∃ token db1,
    signup bcrypt_hash jwt_sign now salt (Credentials.mk (JStr e) (JStr p)) db
    = (mkResponse 201 (AuthBody "User created successfully" token
                                (user_seq db) e), db1)
    ∧ login bcrypt_compare jwt_sign now' (Credentials.mk (JStr e) (JStr p)) db1
      = (mkResponse 200 (AuthBody "Login successful"
                                  (jwt_sign (user_seq db) now')
                                  (user_seq db) e), db1)
    ∧ (∀ q, q ≠ "" → bcrypt_compare q (bcrypt_hash salt p) = false →
         login bcrypt_compare jwt_sign now' (Credentials.mk (JStr e) (JStr q))
               db1
         = (mkResponse 401 (ErrorBody "Invalid credentials"), db1)).
Proof.
  intros He Hlen Hnone Hok. rewrite signup_created by done. simpl.
  eexists _, _. split; [reflexivity|]. split.
  - unfold login, try_catch, bind. cbn [Credentials.email Credentials.password].
    rewrite (truthy_JStr_true _ He),
      (truthy_JStr_true _ (long_password_nonempty _ Hlen)).
    simpl. rewrite lookup_insert_eq. simpl. by rewrite Hok.
  - intros q Hq Hbad.
    apply (login_wrong_password _ _ now' e q _
             (User.mk (user_seq db) e (bcrypt_hash salt p) now now));
      [done | done | apply lookup_insert_eq | done].
Qed.

(** X3: an identifier is registered once: after a successful signup, every
    further signup with that identifier is answered 400, "User already
    exists" when its password has six characters or more, and the account
    keeps the hash of the first password. *)
Theorem signup_twice now now' salt salt' e p req db :
  e ≠ "" → (6 ≤ String.length p)%nat → users db !! e = None →
  Credentials.email req = JStr e →
  let db1 :=
    (signup bcrypt_hash jwt_sign now salt (Credentials.mk (JStr e) (JStr p))
            db).2 in
  let second := signup bcrypt_hash jwt_sign now' salt' req db1 in
  status second.1 = 400
  ∧ second.2 = db1
  ∧ User.password <$> users db1 !! e = Some (bcrypt_hash salt p)
  ∧ (∀ q, Credentials.password req = JStr q → (6 ≤ String.length q)%nat →
       second.1 = mkResponse 400 (ErrorBody "User already exists")).
Proof.
  intros He Hlen Hnone Hreq db1 second. subst second db1.
  rewrite signup_created by done. cbn [snd].
  set (u := User.mk (user_seq db) e (bcrypt_hash salt p) now now).
  set (db1 := mkDb _ _ _ _).
  assert (Hu : users db1 !! e = Some u) by apply lookup_insert_eq.
  destruct (signup_existing bcrypt_hash jwt_sign now' salt' req db1 e u Hreq Hu)
    as (Hdb & Hst & Hmsg).
  split_and!; try done.
  - by rewrite Hu.
  - intros q Hq Hqlen. by apply (Hmsg q).
Qed.

(** X4: login answers 200 only to a string identifier that is in the store
    together with a string password that bcrypt accepts against the stored
    hash; the token it issues is signed for the id of that account. *)
Theorem login_sound now req db :
  status (login bcrypt_compare jwt_sign now req db).1 = 200 →
  ∃ e p u,
    req = Credentials.mk (JStr e) (JStr p)
    ∧ users db !! e = Some u
    ∧ bcrypt_compare p (User.password u) = true
    ∧ (login bcrypt_compare jwt_sign now req db).1
      = mkResponse 200 (AuthBody "Login successful"
                                 (jwt_sign (User.id u) now)
                                 (User.id u) (User.email u)).
Proof.
  destruct req as [email password].
  unfold login, try_catch, bind, prisma.user.findUnique.
  cbn [Credentials.email Credentials.password].
  destruct (negb (truthy email) || negb (truthy password)); [done|].
  destruct email as [| |b|n|e]; try done. simpl.
  destruct (users db !! e) as [u|] eqn:Hu; [|done].
  destruct password as [| |b|n|p]; try done. simpl.
  destruct (bcrypt_compare p (User.password u)) eqn:Hok; [|done].
  simpl. intros _. by exists e, p, u.
Qed.

(** X5: accounts are only ever added: a signup leaves every existing account
    as it is and does not touch the todos, a login changes nothing, and a
    request to the todo router leaves the accounts alone. *)
Theorem accounts_only_added now salt creds jwt_verify req db :
  (∀ e u, users db !! e = Some u →
     users (signup bcrypt_hash jwt_sign now salt creds db).2 !! e = Some u)
  ∧ todos (signup bcrypt_hash jwt_sign now salt creds db).2 = todos db
  ∧ (login bcrypt_compare jwt_sign now creds db).2 = db
  ∧ users (todos_router jwt_verify now req db).2 = users db.
Proof.
  split_and!.
  - intros e u Hu. unfold signup. rewrite try_catch_snd. unfold bind, ret, lift.
    destruct (negb _ || negb _); [done|].
    destruct (length_lt _ _); [done|].
    unfold prisma.user.findUnique, prisma.user.create.
    destruct (Credentials.email creds) as [| |b|n|e']; try done. simpl.
    destruct (users db !! e') eqn:He'; [done|].
    destruct (bcrypt_hash_js _ _ _); simpl; [|done].
    rewrite He'. simpl. rewrite lookup_insert_ne; [done|]. congruence.
  - unfold signup. rewrite try_catch_snd. unfold bind, ret, lift.
    destruct (negb _ || negb _); [done|].
    destruct (length_lt _ _); [done|].
    unfold prisma.user.findUnique, prisma.user.create.
    destruct (Credentials.email creds) as [| |b|n|e']; try done. simpl.
    destruct (users db !! e') eqn:He'; [done|].
    destruct (bcrypt_hash_js _ _ _); simpl; [|done].
    by rewrite He'.
  - apply login_keeps_db.
  - apply todos_router_keeps_users.
Qed.

End Accounts.

(** ** Todos: isolation between principals, and how requests compose *)

Section TodoRequests.

Variable jwt_verify : Z → string → option Z.

(** X6: a resource is changed or removed only by a request that passes the
    gate as its owner: if a row of the store is not the same after a request
    to the todo router, the request was authenticated as the owner of that
    row. *)
Theorem row_changed_only_by_owner now req db i t :
  todos db !! i = Some t →
  todos (todos_router jwt_verify now req db).2 !! i ≠ Some t →
  authenticateToken jwt_verify now (authorization req) = Next (Todo.userId t).
Proof.
  intros Hrow Hchanged. unfold todos_router in Hchanged.
  destruct (authenticateToken jwt_verify now (authorization req))
    as [r|userId]; [done|].
  destruct (handle_store now userId (target req) (body req) db)
    as (_ & _ & [(Hsame & _) | [(s & _ & _ & Hfresh & _ & Hrun)
       | [(id & todoId & t0 & t' & _ & _ & Ht0 & Hown & _ & _ & _ & Hrun)
       | (id & todoId & t0 & _ & _ & Ht0 & Hown & Hrun)]]]).
  - by rewrite Hsame in Hchanged.
  - rewrite Hrun in Hchanged. simpl in Hchanged.
    rewrite lookup_insert_ne in Hchanged; [done|]. congruence.
  - rewrite Hrun in Hchanged. simpl in Hchanged.
    destruct (decide (todoId = i)) as [->|Hne].
    + by simplify_eq.
    + by rewrite lookup_insert_ne in Hchanged.
  - rewrite Hrun in Hchanged. simpl in Hchanged.
    destruct (decide (todoId = i)) as [->|Hne].
    + by simplify_eq.
    + by rewrite lookup_delete_ne in Hchanged.
Qed.

(** X7: every todo in an answer of the todo router belongs to the principal
    the request was authenticated as. *)
Theorem responses_show_own_todos now req userId db t :
  authenticateToken jwt_verify now (authorization req) = Next userId →
  t ∈ payload_todos (json (todos_router jwt_verify now req db).1) →
  Todo.userId t = userId.
Proof.
  intros Hauth. rewrite (router_authenticated _ _ _ _ _ Hauth).
  destruct (handle_store now userId (target req) (body req) db)
    as (_ & _ & [(_ & _ & [(msg & Hmsg & _) | [Hr | Hget]])
       | [(s & _ & _ & _ & _ & Hrun)
       | [(id & todoId & t0 & t' & _ & _ & _ & _ & _ & Hown & _ & Hrun)
       | (id & todoId & t0 & _ & _ & _ & _ & Hrun)]]]).
  - rewrite Hmsg. simpl. by intros ?%elem_of_nil.
  - rewrite Hr. cbn [handle]. rewrite get_todos_run. simpl.
    rewrite merge_sort_Permutation, list_elem_of_filter. by intros [? _].
  - destruct Hget as (id & todoId & t0 & _ & _ & _ & Hown & ->). simpl.
    by intros ->%list_elem_of_singleton.
  - rewrite Hrun. simpl. by intros ->%list_elem_of_singleton.
  - rewrite Hrun. simpl. by intros ->%list_elem_of_singleton.
  - rewrite Hrun. simpl. by intros ?%elem_of_nil.
Qed.

(** X8: a delete by the owner removes that resource and no other; reading
    the same id afterwards is answered 404, for every principal. *)
Theorem delete_then_read now req userId id todoId t db other :
  authenticateToken jwt_verify now (authorization req) = Next userId →
  target req = DELETE_todo id →
  parseInt id = Some todoId →
  todos db !! todoId = Some t →
  Todo.userId t = userId →
  ∃ db',
    todos_router jwt_verify now req db
    = (mkResponse 200 (MessageBody "Todo deleted successfully"), db')
    ∧ todos db' = base.delete todoId (todos db)
    ∧ (∀ j, j ≠ todoId → todos db' !! j = todos db !! j)
    ∧ get_todo other id db'
      = (mkResponse 404 (ErrorBody "Todo not found"), db').
Proof.
  intros Hauth Hr Hid Ht Hown.
  rewrite (router_authenticated _ _ _ _ _ Hauth), Hr. cbn [handle].
  unfold delete_todo, try_catch, bind, prisma.todo.findUnique,
    prisma.todo.delete.
  rewrite Hid, Ht. apply Z.eqb_eq in Hown. rewrite Hown. simpl. rewrite Ht.
  eexists. split; [reflexivity|]. simpl. split_and!; [done| |].
  - intros j Hj. by apply lookup_delete_ne.
  - unfold get_todo, try_catch, bind, prisma.todo.findUnique.
    rewrite Hid. simpl. by rewrite lookup_delete_eq.
Qed.

(** X9: a resource that a principal with an account has just created can be
    read back by its id as the client writes it into the URL: the creator
    gets the created resource, every other principal gets 403. *)
Theorem create_then_read now req userId s db :
  authenticateToken jwt_verify now (authorization req) = Next userId →
  target req = POST_todo →
  Body.title (body req) = JStr s → trim s ≠ "" →
  db_ok db →
  has_user db userId = true →
  ∃ t db',
    todos_router jwt_verify now req db = (mkResponse 201 (TodoBody t), db')
    ∧ get_todo userId (Number_toString (Todo.id t)) db'
      = (mkResponse 200 (TodoBody t), db')
    ∧ (∀ other, other ≠ userId →
         get_todo other (Number_toString (Todo.id t)) db'
         = (mkResponse 403 (ErrorBody "Access denied"), db')).
Proof.
  intros Hauth Hr Hs Hne Hok Huser.
  rewrite (router_authenticated _ _ _ _ _ Hauth), Hr. cbn [handle].
  rewrite (post_todo_created _ _ _ _ _ Hs Hne (db_ok_fresh _ Hok) Huser).
  eexists _, _. split; [reflexivity|]. simpl.
  assert (Hparse : parseInt (Number_toString (todo_seq db))
                   = Some (todo_seq db)).
  { apply parseInt_digits_back. }
  split.
  - unfold get_todo, try_catch, bind, prisma.todo.findUnique.
    rewrite Hparse. simpl. rewrite lookup_insert_eq. simpl.
    by rewrite Z.eqb_refl.
  - intros other Hother.
    unfold get_todo, try_catch, bind, prisma.todo.findUnique.
    rewrite Hparse. simpl. rewrite lookup_insert_eq. simpl.
    apply not_eq_sym, Z.eqb_neq in Hother. by rewrite Hother.
Qed.

End TodoRequests.

(** ** Requests that fail *)

Lemma signup_store bcrypt_hash jwt_sign now salt req db :
  ((signup bcrypt_hash jwt_sign now salt req db).2 = db
   ∧ error_answer (signup bcrypt_hash jwt_sign now salt req db).1)
  ∨ ∃ e p, req = Credentials.mk (JStr e) (JStr p) ∧ e ≠ ""
      ∧ (6 ≤ String.length p)%nat ∧ users db !! e = None
      ∧ signup bcrypt_hash jwt_sign now salt req db
        = let u := User.mk (user_seq db) e (bcrypt_hash salt p) now now in
          (mkResponse 201
             (AuthBody "User created successfully" (jwt_sign (user_seq db) now)
                       (user_seq db) e),
           mkDb (<[e := u]> (users db)) (user_seq db + 1) (todos db)
                (todo_seq db)).
Proof.
  destruct req as [email password].
  assert (Herr : ∀ st msg, msg ≠ "" → st = 400 ∨ st = 500 →
            error_answer (mkResponse st (ErrorBody msg))).
  { intros st msg Hmsg Hst. exists msg. simpl. split_and!; [done..|tauto]. }
  destruct (truthy email) eqn:Hte;
    [|left; unfold signup, try_catch, bind;
      cbn [Credentials.email Credentials.password]; rewrite Hte; simpl;
      split; [done|apply Herr; [done|tauto]]].
  destruct (truthy password) eqn:Htp;
    [|left; unfold signup, try_catch, bind;
      cbn [Credentials.email Credentials.password]; rewrite Hte, Htp; simpl;
      split; [done|apply Herr; [done|tauto]]].
  destruct (length_lt password 6) eqn:Hlen;
    [left; unfold signup, try_catch, bind;
     cbn [Credentials.email Credentials.password]; rewrite Hte, Htp, Hlen;
     simpl; split; [done|apply Herr; [done|tauto]]|].
  destruct email as [| |b|n|e];
    try (left; unfold signup, try_catch, bind;
         cbn [Credentials.email Credentials.password];
         rewrite Hte, Htp, Hlen; simpl;
         split; [done|apply Herr; [done|tauto]]).
  destruct (users db !! e) as [u|] eqn:Hu;
    [left; unfold signup, try_catch, bind;
     cbn [Credentials.email Credentials.password];
     rewrite Hte, Htp, Hlen; simpl; rewrite Hu;
     split; [done|apply Herr; [done|tauto]]|].
  destruct password as [| |b|n|p];
    try (left; unfold signup, try_catch, bind;
         cbn [Credentials.email Credentials.password];
         rewrite Hte, Htp, Hlen; simpl; rewrite Hu; simpl;
         split; [done|apply Herr; [done|tauto]]).
  right. exists e, p. simpl in Hte, Hlen.
  apply negb_true_iff, String.eqb_neq in Hte. apply Nat.ltb_ge in Hlen.
  split_and!; try done. unfold signup, try_catch, bind.
  cbn [Credentials.email Credentials.password].
  rewrite (truthy_JStr_true _ Hte), Htp. simpl.
  destruct (Nat.ltb_spec (String.length p) 6) as [?|_]; [lia|].
  simpl. by rewrite Hu, Hu.
Qed.

Lemma login_answer bcrypt_compare jwt_sign now req db :
  error_answer (login bcrypt_compare jwt_sign now req db).1
  ∨ status (login bcrypt_compare jwt_sign now req db).1 = 200.
Proof.
  assert (Herr : ∀ st msg, msg ≠ "" → st = 400 ∨ st = 401 ∨ st = 500 →
            error_answer (mkResponse st (ErrorBody msg))).
  { intros st msg Hmsg Hst. exists msg. simpl. split_and!; [done..|tauto]. }
  destruct req as [email password].
  unfold login, try_catch, bind, prisma.user.findUnique.
  cbn [Credentials.email Credentials.password].
  destruct (negb (truthy email) || negb (truthy password));
    [left; apply Herr; [done|tauto]|].
  destruct email as [| |b|n|e]; simpl;
    try (left; apply Herr; [done|tauto]).
  destruct (users db !! e) as [u|]; simpl;
    [|left; apply Herr; [done|tauto]].
  destruct password as [| |b|n|p]; simpl;
    try (left; apply Herr; [done|tauto]).
  destruct (bcrypt_compare p (User.password u)); simpl;
    [by right | left; apply Herr; [done|tauto]].
Qed.

Lemma gate_answer jwt_verify now authHeader r :
  authenticateToken jwt_verify now authHeader = Respond r → error_answer r.
Proof.
  unfold authenticateToken, verify_callback.
  destruct (header_token authHeader) as [[|c tok]|];
    [| destruct (jwt_verify now (String c tok)) |]; intros H; simplify_eq;
    eexists; simpl; split_and!; try done; tauto.
Qed.

Section Failures.

Variable bcrypt_hash : string → string → string.
Variable bcrypt_compare : string → string → bool.
Variable jwt_sign : Z → Z → string.
Variable jwt_verify : Z → string → option Z.

(** X10: a request that is not answered with 200 or 201 has changed neither
    the accounts nor the todos; this holds for signup, login and every
    route of the todo router, whatever the request carries. *)
Theorem failure_changes_nothing c db :
  status (serve bcrypt_hash bcrypt_compare jwt_sign jwt_verify c db).1 ≠ 200 →
  status (serve bcrypt_hash bcrypt_compare jwt_sign jwt_verify c db).1 ≠ 201 →
  users (serve bcrypt_hash bcrypt_compare jwt_sign jwt_verify c db).2
  = users db
  ∧ todos (serve bcrypt_hash bcrypt_compare jwt_sign jwt_verify c db).2
    = todos db.
Proof.
  destruct c as [now salt req|now req|now req]; cbn [serve]; intros H200 H201.
  - destruct (signup_store bcrypt_hash jwt_sign now salt req db)
      as [[-> _] | (e & p & _ & _ & _ & _ & Hrun)]; [done|].
    by rewrite Hrun in H201.
  - by rewrite login_keeps_db.
  - unfold todos_router in *.
    destruct (authenticateToken jwt_verify now (authorization req))
      as [r|userId]; [done|].
    destruct (handle_store now userId (target req) (body req) db)
      as (Hu & _ & [(Hsame & _) | [(s & _ & _ & _ & _ & Hrun)
         | [(id & todoId & t0 & t' & _ & _ & _ & _ & _ & _ & _ & Hrun)
         | (id & todoId & t0 & _ & _ & _ & _ & Hrun)]]]);
      [done|by rewrite Hrun in H201|by rewrite Hrun in H200
      |by rewrite Hrun in H200].
Qed.

(** Every answer of the backend that is not a success is an error object
    with a non-empty message under one of the statuses 400, 401, 403, 404
    and 500; a success is answered 200 or 201. *)
Lemma answers_are_success_or_error c db :
  let r := (serve bcrypt_hash bcrypt_compare jwt_sign jwt_verify c db).1 in
  error_answer r ∨ status r = 200 ∨ status r = 201.
Proof.
  destruct c as [now salt req|now req|now req]; cbn [serve]; cbv zeta.
  - destruct (signup_store bcrypt_hash jwt_sign now salt req db)
      as [[_ Herr] | (e & p & _ & _ & _ & _ & Hrun)]; [by left|].
    rewrite Hrun. tauto.
  - destruct (login_answer bcrypt_compare jwt_sign now req db); tauto.
  - unfold todos_router.
    destruct (authenticateToken jwt_verify now (authorization req))
      as [r|userId] eqn:Hgate; [left; by eapply gate_answer|].
    destruct (handle_store now userId (target req) (body req) db)
      as (_ & _ & [(_ & _ & [Herr | [Hr | Hget]])
         | [(s & _ & _ & _ & _ & Hrun)
         | [(id & todoId & t0 & t' & _ & _ & _ & _ & _ & _ & _ & Hrun)
         | (id & todoId & t0 & _ & _ & _ & _ & Hrun)]]]).
    + by left.
    + rewrite Hr. cbn [handle]. rewrite get_todos_run. tauto.
    + destruct Hget as (id & todoId & t0 & _ & _ & _ & _ & ->). tauto.
    + rewrite Hrun. tauto.
    + rewrite Hrun. tauto.
    + rewrite Hrun. tauto.
Qed.

End Failures.

(** ** Titles that are not strings *)

(** X11: a create request whose title is not a string never creates
    anything: null, false and 0 are answered 400 "Title is required" like an
    absent title, while true and any other number make [title.trim] throw
    and are answered 500 "Failed to create todo". *)
Theorem create_title_not_a_string now userId b db :
  (∀ s, Body.title b ≠ JStr s) →
  (post_todo now userId b db).2 = db
  ∧ (truthy (Body.title b) = false →
       (post_todo now userId b db).1
       = mkResponse 400 (ErrorBody "Title is required"))
  ∧ (truthy (Body.title b) = true →
       (post_todo now userId b db).1
       = mkResponse 500 (ErrorBody "Failed to create todo")).
Proof.
  intros Hns. unfold post_todo, try_catch, bind, lift, ret.
  destruct (Body.title b) as [| |c|n|s]; simpl; try done.
  - by destruct c.
  - by destruct (n =? 0).
  - by destruct (Hns s).
Qed.

(** X12: an update by the owner whose body carries a title that is not a
    string (null, a boolean, a number) is answered 500 "Failed to update
    todo" and changes nothing, whatever [completed] is. *)
Theorem update_title_not_a_string now id todoId b db t :
  parseInt id = Some todoId →
  todos db !! todoId = Some t →
  Body.title b ≠ JUndefined →
  (∀ s, Body.title b ≠ JStr s) →
  put_todo now (Todo.userId t) id b db
  = (mkResponse 500 (ErrorBody "Failed to update todo"), db).
Proof.
  intros Hid Ht Hdef Hns. rewrite (put_todo_owner _ _ _ _ _ _ Hid Ht).
  unfold update_owned, try_catch, bind, lift, build_updateData.
  destruct (Body.title b) as [| |c|n|s]; simpl; try done.
  by destruct (Hns s).
Qed.

Lemma create_title_not_a_string_witness :
  post_todo 100 1 (Body.mk (JNum 5) JUndefined) Fixture.db
  = (mkResponse 500 (ErrorBody "Failed to create todo"), Fixture.db).
Proof.
  pose proof (create_title_not_a_string 100 1 (Body.mk (JNum 5) JUndefined)
                Fixture.db (λ s H, eq_ind (JNum 5)
                  (λ v, match v with JNum _ => True | _ => False end) I _ H))
    as (Hdb & _ & H500).
  specialize (H500 eq_refl).
  destruct (post_todo 100 1 (Body.mk (JNum 5) JUndefined) Fixture.db).
  simpl in *. by subst.
Defined.

Lemma update_title_not_a_string_witness :
  put_todo 100 1 "1" (Body.mk JNull (JBool true)) Fixture.db
  = (mkResponse 500 (ErrorBody "Failed to update todo"), Fixture.db).
Proof.
  refine (update_title_not_a_string 100 "1" 1 (Body.mk JNull (JBool true))
            Fixture.db Fixture.milk eq_refl eq_refl _ _); simpl; discriminate.
Defined.

(** ** What every reachable store satisfies *)

Lemma trimStart_length s : (String.length (trimStart s) ≤ String.length s)%nat.
Proof.
  induction s as [|c r IH]; simpl; [lia|].
  destruct (is_space c); simpl; lia.
Qed.

Lemma trimStart_head c r :
  trimStart (String c r) = String c r → is_space c = false.
Proof.
  simpl. destruct (is_space c); [|done]. intros H.
  pose proof (trimStart_length r) as Hlen. rewrite H in Hlen. simpl in Hlen.
  lia.
Qed.

Lemma trimStart_idem s : trimStart (trimStart s) = trimStart s.
Proof.
  induction s as [|c r IH]; simpl; [done|].
  destruct (is_space c) eqn:Hc; [done|]. simpl. by rewrite Hc.
Qed.

Lemma trimEnd_cons c r :
  trimEnd (String c r)
  = match trimEnd r with
    | EmptyString => if is_space c then EmptyString else String c EmptyString
    | r' => String c r'
    end.
Proof. reflexivity. Qed.

Lemma trimEnd_idem s : trimEnd (trimEnd s) = trimEnd s.
Proof.
  induction s as [|c r IH]; [done|]. rewrite trimEnd_cons.
  destruct (trimEnd r) as [|c' r'] eqn:Hr.
  - destruct (is_space c) eqn:Hc; [done|].
    rewrite trimEnd_cons. simpl. by rewrite Hc.
  - rewrite trimEnd_cons, IH. done.
Qed.

Lemma trimStart_trimEnd s :
  trimStart s = s → trimStart (trimEnd s) = trimEnd s.
Proof.
  destruct s as [|c r]; [done|]. intros Hc%trimStart_head.
  rewrite trimEnd_cons. destruct (trimEnd r); rewrite ?Hc; simpl;
    by rewrite Hc.
Qed.

(** Trimming what is trimmed changes nothing. *)
Lemma trim_idem s : trim (trim s) = trim s.
Proof.
  unfold trim.
  rewrite (trimStart_trimEnd (trimStart s)) by apply trimStart_idem.
  apply trimEnd_idem.
Qed.

Section Reachable.

Variable bcrypt_hash : string → string → string.
Variable bcrypt_compare : string → string → bool.
Variable jwt_sign : Z → Z → string.
Variable jwt_verify : Z → string → option Z.

Local Notation "'srv'" :=
  (serve bcrypt_hash bcrypt_compare jwt_sign jwt_verify).
Local Notation "'runs'" :=
  (run bcrypt_hash bcrypt_compare jwt_sign jwt_verify).

(** A property of the store that holds at the start and that every request
    keeps holds after every history. *)
Lemma run_invariant (P : Db → Prop) :
  (∀ c db, P db → P (srv c db).2) →
  ∀ calls db, P db → P (runs calls db).
Proof.
  intros Hstep calls. induction calls as [|c calls IH]; intros db Hdb; [done|].
  simpl. apply IH, Hstep, Hdb.
Qed.

Lemma serve_todos_cases c db :
  (todos (srv c db).2 = todos db
   ∧ (todo_seq (srv c db).2 = todo_seq db
      ∨ todo_seq (srv c db).2 = todo_seq db + 1))
  ∨ (∃ t, todos db !! todo_seq db = None ∧ Todo.id t = todo_seq db
       ∧ trim (Todo.title t) = Todo.title t
       ∧ todos (srv c db).2 = <[todo_seq db := t]> (todos db)
       ∧ todo_seq (srv c db).2 = todo_seq db + 1)
  ∨ (∃ todoId t t', todos db !! todoId = Some t ∧ Todo.id t' = Todo.id t
       ∧ (Todo.title t' = Todo.title t
          ∨ trim (Todo.title t') = Todo.title t')
       ∧ todos (srv c db).2 = <[todoId := t']> (todos db)
       ∧ todo_seq (srv c db).2 = todo_seq db)
  ∨ (∃ todoId, todos (srv c db).2 = base.delete todoId (todos db)
       ∧ todo_seq (srv c db).2 = todo_seq db).
Proof.
  destruct c as [now salt req|now req|now req]; cbn [serve].
  - left. destruct (signup_store bcrypt_hash jwt_sign now salt req db)
      as [[-> _] | (e & p & _ & _ & _ & _ & ->)]; simpl; tauto.
  - left. rewrite login_keeps_db. tauto.
  - unfold todos_router.
    destruct (authenticateToken jwt_verify now (authorization req))
      as [r|userId]; [left; simpl; tauto|].
    destruct (handle_store now userId (target req) (body req) db)
      as (_ & _ & [(Hsame & Hseq & _) | [(s & _ & _ & Hfresh & _ & Hrun)
         | [(id & todoId & t0 & t' & _ & _ & Ht0 & _ & Hid & _ & Htitle & Hrun)
         | (id & todoId & t0 & _ & _ & _ & _ & Hrun)]]]).
    + left. split; [done|]. destruct Hseq as [?|[? _]]; tauto.
    + right. left. rewrite Hrun. simpl.
      exists (Todo.mk (todo_seq db) (trim s) false userId now now).
      split_and!; try done. simpl. apply trim_idem.
    + right. right. left. rewrite Hrun. simpl.
      exists todoId, t0, t'. split_and!; try done.
      destruct Htitle as [?|(s & _ & ->)]; [by left|right; apply trim_idem].
    + right. right. right. rewrite Hrun. simpl. by exists todoId.
Qed.

Lemma serve_keeps_todo_keys c db :
  db_ok db ∧ rows_keyed db → db_ok (srv c db).2 ∧ rows_keyed (srv c db).2.
Proof.
  intros [Hok Hkeyed]. unfold db_ok, rows_keyed in *.
  destruct (serve_todos_cases c db)
    as [(-> & Hseq) | [(t & Hfresh & Hid & _ & -> & ->)
       | [(todoId & t0 & t' & Ht0 & Hid & _ & -> & ->) | (todoId & -> & ->)]]].
  - split; [|done]. intros i t Hi. apply Hok in Hi. lia.
  - split; intros i t' Hi.
    + destruct (decide (i = todo_seq db)) as [->|Hne]; [lia|].
      rewrite lookup_insert_ne in Hi by done. apply Hok in Hi. lia.
    + destruct (decide (i = todo_seq db)) as [->|Hne].
      * rewrite lookup_insert_eq in Hi. by simplify_eq.
      * rewrite lookup_insert_ne in Hi by done. by eapply Hkeyed.
  - split; intros i t Hi.
    + destruct (decide (i = todoId)) as [->|Hne]; [by eapply Hok|].
      rewrite lookup_insert_ne in Hi by done. by eapply Hok.
    + destruct (decide (i = todoId)) as [->|Hne].
      * rewrite lookup_insert_eq in Hi. simplify_eq. rewrite Hid.
        by eapply Hkeyed.
      * rewrite lookup_insert_ne in Hi by done. by eapply Hkeyed.
  - split; intros i t Hi.
    + destruct (decide (i = todoId)) as [->|Hne];
        [by rewrite lookup_delete_eq in Hi|].
      rewrite lookup_delete_ne in Hi by done. by eapply Hok.
    + destruct (decide (i = todoId)) as [->|Hne];
        [by rewrite lookup_delete_eq in Hi|].
      rewrite lookup_delete_ne in Hi by done. by eapply Hkeyed.
Qed.

(** A request never takes the sequence back, and never fills an id the
    sequence has passed. *)
Lemma serve_ids_not_reused c db :
  todo_seq db ≤ todo_seq (srv c db).2
  ∧ (∀ i, i < todo_seq db → todos db !! i = None →
       todos (srv c db).2 !! i = None).
Proof.
  destruct (serve_todos_cases c db)
    as [(-> & Hseq) | [(t & Hfresh & Hid & _ & -> & ->)
       | [(todoId & t0 & t' & Ht0 & Hid & _ & -> & ->) | (todoId & -> & ->)]]].
  - split; [lia|done].
  - split; [lia|]. intros i Hi Hnone. rewrite lookup_insert_ne; [done|lia].
  - split; [lia|]. intros i Hi Hnone.
    rewrite lookup_insert_ne; [done|]. congruence.
  - split; [lia|]. intros i Hi Hnone.
    destruct (decide (i = todoId)) as [->|Hne];
      [apply lookup_delete_eq | by rewrite lookup_delete_ne].
Qed.

Lemma run_ids_not_reused more db :
  todo_seq db ≤ todo_seq (runs more db)
  ∧ (∀ i, i < todo_seq db → todos db !! i = None →
       todos (runs more db) !! i = None).
Proof.
  revert db. induction more as [|c more IH]; intros db; [done|].
  cbn [run]. destruct (serve_ids_not_reused c db) as [Hseq Hnone].
  destruct (IH (srv c db).2) as [Hseq' Hnone'].
  split; [lia|]. intros i Hi Hi'. apply Hnone'; [lia|]. by apply Hnone.
Qed.

(** X13: after every history of requests, starting from the empty store,
    each resource sits under its own id and below the autoincrement
    sequence, so a create never overwrites a resource; and whatever requests
    follow, the sequence never goes back and an id it has passed that holds
    no resource (one that was deleted, or skipped by a failed insert) never
    holds one again: ids are not reused. *)
Theorem reachable_todo_ids calls more :
  db_ok (runs calls empty_db) ∧ rows_keyed (runs calls empty_db)
  ∧ todo_seq (runs calls empty_db)
    ≤ todo_seq (runs more (runs calls empty_db))
  ∧ (∀ i, i < todo_seq (runs calls empty_db) →
       todos (runs calls empty_db) !! i = None →
       todos (runs more (runs calls empty_db)) !! i = None).
Proof.
  assert (Hinv : db_ok (runs calls empty_db) ∧ rows_keyed (runs calls empty_db)).
  { apply (run_invariant (λ db, db_ok db ∧ rows_keyed db)).
    - apply serve_keeps_todo_keys.
    - split; intros i t Hi; simpl in Hi; by rewrite lookup_empty in Hi. }
  destruct Hinv as [Hok Hkeyed].
  destruct (run_ids_not_reused more (runs calls empty_db)) as [Hseq Hnone].
  by split_and!.
Qed.

(** X14: after every history of requests, starting from the empty store,
    every stored title is trimmed: it neither begins nor ends with white
    space. *)
Theorem reachable_titles_trimmed calls :
  titles_trimmed (runs calls empty_db).
Proof.
  apply (run_invariant titles_trimmed).
  - intros c db Htr. unfold titles_trimmed in *.
    destruct (serve_todos_cases c db)
      as [(-> & _) | [(t & _ & _ & Htitle & -> & _)
         | [(todoId & t0 & t' & Ht0 & _ & Htitle & -> & _)
         | (todoId & -> & _)]]]; [done|..]; intros i x Hi.
    + destruct (decide (i = todo_seq db)) as [->|Hne].
      * rewrite lookup_insert_eq in Hi. by simplify_eq.
      * rewrite lookup_insert_ne in Hi by done. by eapply Htr.
    + destruct (decide (i = todoId)) as [->|Hne].
      * rewrite lookup_insert_eq in Hi. simplify_eq.
        destruct Htitle as [->|?]; [by eapply Htr|done].
      * rewrite lookup_insert_ne in Hi by done. by eapply Htr.
    + destruct (decide (i = todoId)) as [->|Hne];
        [by rewrite lookup_delete_eq in Hi|].
      rewrite lookup_delete_ne in Hi by done. by eapply Htr.
  - intros i t Hi. simpl in Hi. by rewrite lookup_empty in Hi.
Qed.

Lemma serve_users_cases c db :
  (users (srv c db).2 = users db ∧ user_seq (srv c db).2 = user_seq db)
  ∨ ∃ e u, users db !! e = None ∧ User.email u = e
      ∧ User.id u = user_seq db
      ∧ users (srv c db).2 = <[e := u]> (users db)
      ∧ user_seq (srv c db).2 = user_seq db + 1.
Proof.
  destruct c as [now salt req|now req|now req]; cbn [serve].
  - destruct (signup_store bcrypt_hash jwt_sign now salt req db)
      as [[-> _] | (e & p & _ & _ & _ & Hnone & ->)]; [by left|].
    right. simpl.
    by exists e, (User.mk (user_seq db) e (bcrypt_hash salt p) now now).
  - left. by rewrite login_keeps_db.
  - left. unfold todos_router.
    destruct (authenticateToken jwt_verify now (authorization req))
      as [r|userId]; [done|].
    destruct (handle_store now userId (target req) (body req) db)
      as (Hu & Hs & _). done.
Qed.

(** X15: after every history of requests, starting from the empty store,
    every account sits under its own identifier and no two accounts share
    an id, so a token signed for an id names one account. *)
Theorem reachable_account_ids calls :
  users_keyed (runs calls empty_db) ∧ user_ids_distinct (runs calls empty_db).
Proof.
  apply (run_invariant (λ db, users_keyed db ∧ user_ids_distinct db)).
  - intros c db [Hkeyed Hdistinct]. unfold users_keyed, user_ids_distinct in *.
    destruct (serve_users_cases c db)
      as [(-> & ->) | (e & u & Hnone & Hemail & Hid & -> & ->)]; [done|].
    split.
    + intros e' u' Hu'. destruct (decide (e' = e)) as [->|Hne].
      * rewrite lookup_insert_eq in Hu'. simplify_eq. split; [done|lia].
      * rewrite lookup_insert_ne in Hu' by done.
        destruct (Hkeyed _ _ Hu'). split; [done|lia].
    + intros e1 e2 u1 u2 H1 H2 Hsame.
      destruct (decide (e1 = e)) as [->|Hne1], (decide (e2 = e)) as [->|Hne2];
        try done.
      * rewrite lookup_insert_eq in H1. rewrite lookup_insert_ne in H2 by done.
        simplify_eq. destruct (Hkeyed _ _ H2). lia.
      * rewrite lookup_insert_eq in H2. rewrite lookup_insert_ne in H1 by done.
        simplify_eq. destruct (Hkeyed _ _ H1). lia.
      * rewrite lookup_insert_ne in H1, H2 by done. by eapply Hdistinct.
  - split.
    + intros e u Hu. simpl in Hu. by rewrite lookup_empty in Hu.
    + intros e1 e2 u1 u2 H1. simpl in H1. by rewrite lookup_empty in H1.
Qed.

End Reachable.

(** ** The API client against the backend *)

Lemma split_no_space s : no_space s = true → split " " s = [s].
Proof.
  induction s as [|c r IH]; [done|]. simpl.
  intros [Hc Hr]%andb_true_iff. apply negb_true_iff in Hc.
  rewrite Hc, (IH Hr). done.
Qed.

Lemma split_space first rest :
  no_space first = true →
  split " " (first ++ String " " rest) = first :: split " " rest.
Proof.
  induction first as [|c r IH]; [done|]. simpl.
  intros [Hc Hr]%andb_true_iff. apply negb_true_iff in Hc.
  by rewrite Hc, (IH Hr).
Qed.

Lemma split_bearer_token tok :
  no_space tok = true → split " " ("Bearer " ++ tok) = ["Bearer"; tok].
Proof.
  intros H. change ("Bearer " ++ tok)%string
    with (String "B" (String "e" (String "a" (String "r" (String "e"
           (String "r" (String " " tok))))))).
  cbn [split Ascii.eqb Bool.eqb]. by rewrite (split_no_space _ H).
Qed.

Lemma fetch_error r :
  error_answer r →
  ∃ msg, json r = ErrorBody msg ∧ msg ≠ "" ∧ fetchWrapper r = Thrown msg.
Proof.
  intros (msg & Hjson & Hmsg & Hst). exists msg. split_and!; try done.
  unfold fetchWrapper. rewrite Hjson, (eqb_empty_false _ Hmsg).
  by destruct Hst as [->|[->|[->|[->| ->]]]].
Qed.

Lemma gate_bearer jwt_verify now token :
  token ≠ "" → no_space token = true →
  authenticateToken jwt_verify now (Some ("Bearer " ++ token))
  = verify_callback (jwt_verify now token).
Proof.
  intros Hne Hns. apply gate_verify; [|done].
  apply header_token_second. by rewrite split_bearer_token.
Qed.

Section ApiClient.

Variable bcrypt_hash : string → string → string.
Variable bcrypt_compare : string → string → bool.
Variable jwt_sign : Z → Z → string.
Variable jwt_verify : Z → string → option Z.

(** X16: what the gate makes of the header [Bearer <token>] the API client
    builds.  A non-empty token without a space is handed to [jwt.verify] as
    it is, and the verdict decides; of a token with a space only the part
    before the first space is verified; an empty token is answered 401
    "Access token required". *)
Theorem client_header_reaches_verify now token :
  (token = "" →
     authenticateToken jwt_verify now (Some ("Bearer " ++ token))
     = Respond (mkResponse 401 (ErrorBody "Access token required")))
  ∧ (token ≠ "" → no_space token = true →
       authenticateToken jwt_verify now (Some ("Bearer " ++ token))
       = verify_callback (jwt_verify now token))
  ∧ (∀ first rest, token = (first ++ String " " rest)%string →
       first ≠ "" → no_space first = true →
       authenticateToken jwt_verify now (Some ("Bearer " ++ token))
       = verify_callback (jwt_verify now first)).
Proof.
  split_and!.
  - by intros ->.
  - apply gate_bearer.
  - intros first rest -> Hne Hns. apply gate_verify; [|done].
    apply header_token_second.
    change ("Bearer " ++ first ++ String " " rest)%string
      with (String "B" (String "e" (String "a" (String "r" (String "e"
             (String "r" (String " " (first ++ String " " rest)%string))))))).
    cbn [split Ascii.eqb Bool.eqb]. by rewrite split_space.
Qed.

(** X17: the API client reports what the backend answered: a 200 or 201
    answer is returned as data, and every other answer is thrown with the
    error message of the backend itself; the fallback text "Something went
    wrong" is never needed. *)
Theorem client_reports_backend_answer c db :
  let r := (serve bcrypt_hash bcrypt_compare jwt_sign jwt_verify c db).1 in
  (fetchWrapper r = Data (json r) ∧ (status r = 200 ∨ status r = 201))
  ∨ ∃ msg, fetchWrapper r = Thrown msg ∧ json r = ErrorBody msg ∧ msg ≠ "".
Proof.
  cbv zeta.
  destruct (answers_are_success_or_error bcrypt_hash bcrypt_compare jwt_sign
              jwt_verify c db) as [Herr | Hok].
  - right. destruct (fetch_error _ Herr) as (msg & ? & ? & ?). by exists msg.
  - left. unfold fetchWrapper. destruct Hok as [H|H]; rewrite H; simpl; tauto.
Qed.

End ApiClient.

Lemma client_header_reaches_verify_witness :
  authenticateToken Fixture.jwt_verify 100 (Some "Bearer tok2") = Next 2.
Proof.
  refine (proj1 (proj2 (client_header_reaches_verify Fixture.jwt_verify 100
                          "tok2")) _ eq_refl).
  discriminate.
Defined.

(** ** The todo list on screen *)

(** X18: in the summary line, completed and pending add up to the total. *)
Theorem summary_adds_up st :
  ((summary st).1.2 + (summary st).2 = (summary st).1.1)%nat.
Proof.
  unfold summary. simpl. induction (TodoList.todos st) as [|t l IH]; [done|].
  rewrite !filter_cons.
  destruct (Todo.completed t); repeat case_decide; simpl in *; try done; lia.
Qed.

Lemma let_pair {A B C} (x : A * B) (f : A → C) :
  (let '(r, d) := x in (f r, d)) = (f x.1, x.2).
Proof. by destruct x. Qed.

Lemma shows_unchanged userId st st' db db' :
  TodoList.todos st' = TodoList.todos st → todos db' = todos db →
  shows userId st db → shows userId st' db'.
Proof. unfold shows. by intros -> ->. Qed.

(** The rows of a keyed store carry their keys as ids, each once. *)
Lemma rows_ids_NoDup db :
  rows_keyed db → NoDup (Todo.id <$> (snd <$> map_to_list (todos db))).
Proof.
  intros Hkeyed.
  assert (Heq : Todo.id <$> (snd <$> map_to_list (todos db))
                = fst <$> map_to_list (todos db)).
  { rewrite <- list_fmap_compose. apply list_fmap_ext.
    intros k [i t] Hin%list_elem_of_lookup_2%elem_of_map_to_list. simpl.
    by apply Hkeyed. }
  rewrite Heq. apply NoDup_fst_map_to_list.
Qed.

Lemma NoDup_fmap_filter {A B} (f : A → B) (P : A → Prop)
  `{∀ x, Decision (P x)} (l : list A) :
  NoDup (f <$> l) → NoDup (f <$> filter P l).
Proof.
  induction l as [|x l IH]; [done|]. rewrite filter_cons, fmap_cons.
  intros [Hx Hl]%NoDup_cons. case_decide; [|by apply IH].
  rewrite fmap_cons. apply NoDup_cons. split; [|by apply IH].
  intros (y & Hy & [_ Hin]%list_elem_of_filter)%list_elem_of_fmap.
  apply Hx. apply list_elem_of_fmap. by exists y.
Qed.

Section TodoScreen.

Variable jwt_verify : Z → string → option Z.

(** The list the backend answers a principal shows that principal's
    todos. *)
Lemma listed_shows userId db title loading error :
  rows_keyed db →
  shows userId
    (TodoList.mk (merge_sort newer_first
                    (filter (λ t, Todo.userId t = userId)
                            (snd <$> map_to_list (todos db))))
                 title loading error) db.
Proof.
  intros Hkeyed. split; simpl.
  - intros t. rewrite merge_sort_Permutation, list_elem_of_filter, elem_of_rows.
    split.
    + intros [Hu [i Hi]]. split; [|done]. by rewrite (Hkeyed _ _ Hi).
    + intros [Hi Hu]. split; [done|]. by exists (Todo.id t).
  - rewrite merge_sort_Permutation. apply NoDup_fmap_filter.
    by apply rows_ids_NoDup.
Qed.

Lemma created_shows userId st db t title loading error :
  shows userId st db →
  todos db !! Todo.id t = None → Todo.userId t = userId →
  shows userId (TodoList.mk (t :: TodoList.todos st) title loading error)
        (mkDb (users db) (user_seq db) (<[Todo.id t := t]> (todos db))
              (todo_seq db + 1)).
Proof.
  intros [Hmem Hnodup] Hfresh Hown. split; simpl.
  - intros x. rewrite elem_of_cons. split.
    + intros [-> | Hin]; [by rewrite lookup_insert_eq|].
      apply Hmem in Hin as [Hx Hu]. split; [|done].
      rewrite lookup_insert_ne; [done|]. intros Heq. congruence.
    + intros [Hx Hu]. destruct (decide (Todo.id t = Todo.id x)) as [Heq|Hne].
      * rewrite <- Heq, lookup_insert_eq in Hx. left. by simplify_eq.
      * rewrite lookup_insert_ne in Hx by done. right. by apply Hmem.
  - apply NoDup_cons. split; [|done].
    intros (y & Hy & [Hlook _]%Hmem)%list_elem_of_fmap. congruence.
Qed.

Lemma updated_shows userId st db todoId t0 t' title loading error :
  shows userId st db → rows_keyed db →
  todos db !! todoId = Some t0 → Todo.userId t0 = userId →
  Todo.id t' = Todo.id t0 → Todo.userId t' = userId →
  shows userId
    (TodoList.mk ((λ t, if Todo.id t =? todoId then t' else t)
                    <$> TodoList.todos st) title loading error)
    (mkDb (users db) (user_seq db) (<[todoId := t']> (todos db)) (todo_seq db)).
Proof.
  intros [Hmem Hnodup] Hkeyed Ht0 Hown Hid Hown'.
  pose proof (Hkeyed _ _ Ht0) as Hkey. split; simpl.
  - intros x. rewrite list_elem_of_fmap. split.
    + intros (y & -> & [Hy Hu]%Hmem).
      destruct (Z.eqb_spec (Todo.id y) todoId) as [Heq|Hne].
      * rewrite Hid, Hkey, lookup_insert_eq. done.
      * by rewrite lookup_insert_ne.
    + intros [Hx Hu]. destruct (decide (todoId = Todo.id x)) as [Heq|Hne].
      * rewrite <- Heq, lookup_insert_eq in Hx.
        assert (x = t') as -> by congruence.
        exists t0. rewrite Hkey, Z.eqb_refl. split; [done|].
        apply Hmem. by rewrite Hkey.
      * rewrite lookup_insert_ne in Hx by done. exists x.
        apply not_eq_sym, Z.eqb_neq in Hne. rewrite Hne. split; [done|].
        by apply Hmem.
  - rewrite <- list_fmap_compose.
    rewrite (list_fmap_ext _ Todo.id); [done|].
    intros k y _. simpl. destruct (Z.eqb_spec (Todo.id y) todoId); [|done].
    congruence.
Qed.

Lemma deleted_shows userId st db todoId title loading error :
  shows userId st db →
  shows userId
    (TodoList.mk (filter (λ t, Todo.id t ≠ todoId) (TodoList.todos st))
                 title loading error)
    (mkDb (users db) (user_seq db) (base.delete todoId (todos db))
          (todo_seq db)).
Proof.
  intros [Hmem Hnodup]. split; simpl.
  - intros x. rewrite list_elem_of_filter, Hmem. split.
    + intros [Hne [Hx Hu]]. by rewrite lookup_delete_ne.
    + intros [Hx Hu]. destruct (decide (todoId = Todo.id x)) as [Heq|Hne].
      * by rewrite Heq, lookup_delete_eq in Hx.
      * rewrite lookup_delete_ne in Hx by done. by split; [apply not_eq_sym|].
  - by apply NoDup_fmap_filter.
Qed.

End TodoScreen.

Section TodoSession.

Variable jwt_verify : Z → string → option Z.

(** A handler of the list leaves the store alone or sends one request to the
    todo router. *)
Lemma todo_step_store now token ev st db :
  (todo_step jwt_verify now token ev st db).2 = db
  ∨ ∃ req, (todo_step jwt_verify now token ev st db).2
           = (todos_router jwt_verify now req db).2.
Proof.
  destruct ev as [| |todo|id]; cbn [todo_step];
    unfold fetchTodos, handleCreateTodo, handleToggleTodo, handleDeleteTodo,
      getTodos, createTodo, updateTodo, deleteTodo;
    try (destruct (String.eqb (trim _) ""); [by left|]);
    (destruct (no_token token); [by left|]);
    rewrite let_pair; right; eexists;
    (destruct (fetchWrapper _) as [[]|]; reflexivity).
Qed.

(** A request the gate turned down, as a handler of the list sees it. *)
Lemma gate_turns_down now tok r route b db :
  authenticateToken jwt_verify now (Some ("Bearer " ++ tok)) = Respond r →
  ∃ msg,
    (let '(r, db') :=
       todos_router jwt_verify now
         (mkRequest (Some ("Bearer " ++ tok)) route b) db in
     (fetchWrapper r, db')) = (Thrown msg, db).
Proof.
  intros Hg. unfold todos_router. cbn [authorization]. rewrite Hg.
  destruct (fetch_error r (gate_answer _ _ _ _ Hg)) as (msg & _ & _ & ->).
  by exists msg.
Qed.

Lemma gate_lets_through now tok userId route b db :
  authenticateToken jwt_verify now (Some ("Bearer " ++ tok)) = Next userId →
  (let '(r, db') :=
     todos_router jwt_verify now
       (mkRequest (Some ("Bearer " ++ tok)) route b) db in
   (fetchWrapper r, db'))
  = (fetchWrapper (handle now userId route b db).1,
     (handle now userId route b db).2).
Proof.
  intros Hg. unfold todos_router. cbn [authorization target body]. rewrite Hg.
  apply let_pair.
Qed.

(** X19: the list on screen follows the store.  If the list shows the todos
    of the principal the token stands for, it still does after the user
    reloads the list, adds a todo, toggles one or removes one, whether the
    backend accepts the request or turns it down (then list and store stay
    as they are); the store keeps its ids in order, so the steps can be
    chained. *)
Theorem list_follows_store now token ev userId st db :
  (∀ u, authenticateToken jwt_verify now
          (Some ("Bearer " ++ default "" token)) = Next u → u = userId) →
  db_ok db → rows_keyed db → shows userId st db →
  shows userId (todo_step jwt_verify now token ev st db).1
        (todo_step jwt_verify now token ev st db).2
  ∧ db_ok (todo_step jwt_verify now token ev st db).2
  ∧ rows_keyed (todo_step jwt_verify now token ev st db).2.
Proof.
  intros Hgate Hok Hkeyed Hshows. split.
  - set (tok := default "" token) in *.
    destruct ev as [| |todo|id]; cbn [todo_step];
      unfold fetchTodos, handleCreateTodo, handleToggleTodo, handleDeleteTodo,
        getTodos, createTodo, updateTodo, deleteTodo;
      try (destruct (String.eqb (trim _) ""); [by eapply shows_unchanged|]);
      (destruct (no_token token); [done|]); fold tok;
      (destruct (authenticateToken jwt_verify now (Some ("Bearer " ++ tok)))
         as [r|u] eqn:Hg;
       [ match goal with
         | |- context [todos_router _ _ (mkRequest _ ?route ?b) _] =>
             destruct (gate_turns_down now tok r route b db Hg) as (msg & ->)
         end; by eapply shows_unchanged
       | pose proof (Hgate u eq_refl) as ->;
         rewrite (gate_lets_through _ _ _ _ _ _ Hg) ]).
    + cbn [handle]. rewrite get_todos_run. simpl. by apply listed_shows.
    + destruct (handle_store now userId POST_todo
                  (Body.mk (JStr (TodoList.newTodoTitle st)) JUndefined) db)
        as (_ & _ & [(Hsame & _ & [Herr | [? | (? & ? & ? & ? & _)]])
           | [(s & _ & _ & Hfresh & _ & Hrun)
           | [(? & ? & ? & ? & ? & _) | (? & ? & ? & ? & _)]]]); try done.
      * destruct (fetch_error _ Herr) as (msg & _ & _ & ->).
        by eapply shows_unchanged.
      * rewrite Hrun. simpl. by apply created_shows.
    + destruct (handle_store now userId (PUT_todo (Number_toString (Todo.id todo)))
                  (Body.mk JUndefined (JBool (negb (Todo.completed todo)))) db)
        as (_ & _ & [(Hsame & _ & [Herr | [? | (? & ? & ? & ? & _)]])
           | [(? & ? & _)
           | [(id0 & todoId & t0 & t' & Hr & Hid0 & Ht0 & Hown & Hid & Hown'
               & _ & Hrun) | (? & ? & ? & ? & _)]]]); try done.
      * destruct (fetch_error _ Herr) as (msg & _ & _ & ->).
        by eapply shows_unchanged.
      * injection Hr as <-. rewrite parseInt_digits_back in Hid0.
        injection Hid0 as <-. rewrite Hrun. simpl.
        by eapply updated_shows.
    + destruct (handle_store now userId (DELETE_todo (Number_toString id))
                  (Body.mk JUndefined JUndefined) db)
        as (_ & _ & [(Hsame & _ & [Herr | [? | (? & ? & ? & ? & _)]])
           | [(? & ? & _)
           | [(? & ? & ? & ? & ? & _)
           | (id0 & todoId & t0 & Hr & Hid0 & _ & _ & Hrun)]]]); try done.
      * destruct (fetch_error _ Herr) as (msg & _ & _ & ->).
        by eapply shows_unchanged.
      * injection Hr as <-. rewrite parseInt_digits_back in Hid0.
        injection Hid0 as <-. rewrite Hrun. simpl.
        by apply deleted_shows.
  - destruct (todo_step_store now token ev st db) as [-> | [req ->]]; [done|].
    apply (serve_keeps_todo_keys (λ _ _, "") (λ _ _, false) (λ _ _, "")
             jwt_verify (Todos now req) db). done.
Qed.

End TodoSession.

Lemma list_follows_store_witness :
  let step :=
    todo_step Fixture.jwt_verify 100 (Some "tok1") SubmitNew
      (TodoList.mk [] " buy milk" false "") Fixture.accounts in
  shows 1 step.1 step.2 ∧ db_ok step.2 ∧ rows_keyed step.2.
Proof.
  refine (list_follows_store Fixture.jwt_verify 100 (Some "tok1") SubmitNew 1
            (TodoList.mk [] " buy milk" false "") Fixture.accounts _ _ _ _).
  - intros u H. injection H as <-. reflexivity.
  - intros i t H. simpl in H. rewrite lookup_empty in H. discriminate H.
  - intros i t H. simpl in H. rewrite lookup_empty in H. discriminate H.
  - split; simpl.
    + intros t. split.
      * intros H. by apply elem_of_nil in H.
      * intros [H _]. rewrite lookup_empty in H. discriminate H.
    + apply NoDup_nil_2.
Defined.

Section AddTodo.

Variable jwt_verify : Z → string → option Z.

(** X20: adding a todo with a token the gate accepts.  A title that is blank
    after trimming is stopped in the browser: the error "Please enter a todo
    title" is shown and the store is not touched.  Any other title is never
    turned down by the backend when the principal has an account: the
    created todo, with the trimmed title and not completed, is put first in
    the list and the input is cleared.  When no account has the principal's
    id the insert is refused: the list and the input stay, the error "Failed
    to create todo" is shown and no todo is stored. *)
Theorem add_todo_outcomes now tok userId st db :
  authenticateToken jwt_verify now (Some ("Bearer " ++ tok)) = Next userId →
  tok ≠ "" → db_ok db →
  (trim (TodoList.newTodoTitle st) = "" →
     handleCreateTodo jwt_verify now (Some tok) st db
     = (TodoList.mk (TodoList.todos st) (TodoList.newTodoTitle st)
                    (TodoList.loading st) "Please enter a todo title", db))
  ∧ (trim (TodoList.newTodoTitle st) ≠ "" → has_user db userId = true →
       let t := Todo.mk (todo_seq db) (trim (TodoList.newTodoTitle st)) false
                  userId now now in
       handleCreateTodo jwt_verify now (Some tok) st db
       = (TodoList.mk (t :: TodoList.todos st) "" (TodoList.loading st) "",
          mkDb (users db) (user_seq db) (<[todo_seq db := t]> (todos db))
               (todo_seq db + 1)))
  ∧ (trim (TodoList.newTodoTitle st) ≠ "" → has_user db userId = false →
       handleCreateTodo jwt_verify now (Some tok) st db
       = (TodoList.mk (TodoList.todos st) (TodoList.newTodoTitle st)
                      (TodoList.loading st) "Failed to create todo",
          mkDb (users db) (user_seq db) (todos db) (todo_seq db + 1))).
Proof.
  intros Hg Htok Hok. unfold handleCreateTodo. split_and!.
  - by intros ->.
  - intros Hne Huser. rewrite (eqb_empty_false _ Hne).
    destruct tok as [|c tok']; [done|]. cbn [no_token default].
    unfold createTodo. rewrite (gate_lets_through _ _ _ _ _ _ _ Hg).
    cbn [handle].
    rewrite (post_todo_created now userId
               (Body.mk (JStr (TodoList.newTodoTitle st)) JUndefined) db
               (TodoList.newTodoTitle st) eq_refl Hne (db_ok_fresh _ Hok)
               Huser).
    reflexivity.
  - intros Hne Huser. rewrite (eqb_empty_false _ Hne).
    destruct tok as [|c tok']; [done|]. cbn [no_token default].
    unfold createTodo. rewrite (gate_lets_through _ _ _ _ _ _ _ Hg).
    cbn [handle].
    rewrite (post_todo_refused now userId
               (Body.mk (JStr (TodoList.newTodoTitle st)) JUndefined) db
               (TodoList.newTodoTitle st) eq_refl Hne Huser).
    reflexivity.
Qed.

End AddTodo.

Lemma add_todo_outcomes_witness :
  handleCreateTodo Fixture.jwt_verify 100 (Some "tok1")
    (TodoList.mk [] " buy milk" false "") Fixture.accounts
  = (TodoList.mk [Todo.mk 1 "buy milk" false 1 100 100] "" false "",
     mkDb (users Fixture.accounts) 3
          (<[1 := Todo.mk 1 "buy milk" false 1 100 100]> ∅) 2).
Proof.
  refine (proj1 (proj2 (add_todo_outcomes Fixture.jwt_verify 100 "tok1" 1
            (TodoList.mk [] " buy milk" false "") Fixture.accounts
            eq_refl _ _)) _ _).
  - discriminate.
  - intros i t H. simpl in H. rewrite lookup_empty in H. discriminate H.
  - simpl. discriminate.
  - vm_compute. reflexivity.
Defined.

(** ** The auth form *)

Lemma form_error_none form :
  form_error form = None →
  AuthForm.email form ≠ "" ∧ AuthForm.password form ≠ ""
  ∧ includes (AuthForm.email form) "@" = true
  ∧ (6 ≤ String.length (AuthForm.password form))%nat.
Proof.
  unfold form_error.
  destruct (String.eqb_spec (AuthForm.email form) "") as [|He]; [done|].
  destruct (String.eqb_spec (AuthForm.password form) "") as [|Hp]; [done|].
  simpl. destruct (includes (AuthForm.email form) "@"); [|done]. simpl.
  destruct (Nat.ltb_spec (String.length (AuthForm.password form)) 6);
    [done|]. done.
Qed.

Section Form.

Variable bcrypt_hash : string → string → string.
Variable bcrypt_compare : string → string → bool.
Variable jwt_sign : Z → Z → string.

(** X21: signing up through the form.  A form that fails the checks in the
    browser sends nothing.  A form that passes them is never turned down by
    the validation of the backend: if the identifier is free the account is
    created and the form logs in with the token and user of the answer;
    if it is taken the form shows "User already exists" and the store stays
    as it was. *)
Theorem form_signup now salt form db :
  AuthForm.isLogin form = false →
  let e := AuthForm.email form in
  let p := AuthForm.password form in
  let shown msg :=
    AuthForm.mk false e p msg false in
  (∀ msg, form_error form = Some msg →
     handleSubmit bcrypt_hash bcrypt_compare jwt_sign now salt form db
     = (AuthForm.mk false e p msg (AuthForm.loading form), None, db))
  ∧ (form_error form = None → users db !! e = None →
       handleSubmit bcrypt_hash bcrypt_compare jwt_sign now salt form db
       = (shown "",
          Some (jwt_sign (user_seq db) now, mkSessionUser (user_seq db) e),
          mkDb (<[e := User.mk (user_seq db) e (bcrypt_hash salt p) now now]>
                  (users db))
               (user_seq db + 1) (todos db) (todo_seq db)))
  ∧ (form_error form = None → is_Some (users db !! e) →
       handleSubmit bcrypt_hash bcrypt_compare jwt_sign now salt form db
       = (shown "User already exists", None, db)).
Proof.
  intros Hmode. cbv zeta. unfold handleSubmit. rewrite Hmode. split_and!.
  - by intros msg ->.
  - intros Hvalid Hfree. rewrite Hvalid.
    destruct (form_error_none _ Hvalid) as (He & Hp & _ & Hlen).
    unfold api_signup. rewrite signup_created by done. reflexivity.
  - intros Hvalid [u Hu]. rewrite Hvalid.
    destruct (form_error_none _ Hvalid) as (He & Hp & _ & Hlen).
    unfold api_signup. rewrite let_pair.
    destruct (signup_existing bcrypt_hash jwt_sign now salt
                (Credentials.mk (JStr (AuthForm.email form))
                                (JStr (AuthForm.password form)))
                db (AuthForm.email form) u eq_refl Hu) as (-> & _ & Hmsg).
    by rewrite (Hmsg _ eq_refl He Hlen).
Qed.

(** X22: logging in through the form.  A form that passes the checks in the
    browser logs in with the token and user of the answer exactly when the
    identifier is known and bcrypt accepts the password against the stored
    hash; otherwise it shows "Invalid credentials".  The store stays as it
    was either way. *)
Theorem form_login now salt form db :
  AuthForm.isLogin form = true →
  form_error form = None →
  let e := AuthForm.email form in
  let p := AuthForm.password form in
  (∀ u, users db !! e = Some u → bcrypt_compare p (User.password u) = true →
     handleSubmit bcrypt_hash bcrypt_compare jwt_sign now salt form db
     = (AuthForm.mk true e p "" false,
        Some (jwt_sign (User.id u) now,
              mkSessionUser (User.id u) (User.email u)), db))
  ∧ ((users db !! e = None
      ∨ ∃ u, users db !! e = Some u
             ∧ bcrypt_compare p (User.password u) = false) →
       handleSubmit bcrypt_hash bcrypt_compare jwt_sign now salt form db
       = (AuthForm.mk true e p "Invalid credentials" false, None, db)).
Proof.
  intros Hmode Hvalid. cbv zeta. unfold handleSubmit. rewrite Hmode, Hvalid.
  destruct (form_error_none _ Hvalid) as (He & Hp & _ & _).
  unfold api_login. split.
  - intros u Hu Hok. unfold login, try_catch, bind.
    cbn [Credentials.email Credentials.password].
    rewrite (truthy_JStr_true _ He), (truthy_JStr_true _ Hp). simpl.
    by rewrite Hu, Hok.
  - intros [Hnone | (u & Hu & Hbad)].
    + by rewrite (login_unknown bcrypt_compare jwt_sign now _ _ db He Hp Hnone).
    + by rewrite (login_wrong_password bcrypt_compare jwt_sign now _ _ db u
                    He Hp Hu Hbad).
Qed.

End Form.

Lemma form_signup_witness :
  handleSubmit Fixture.bcrypt_hash Fixture.bcrypt_compare Fixture.jwt_sign
    100 "salt" (AuthForm.mk false "c@x.com" "secret3" "" false) Fixture.db
  = (AuthForm.mk false "c@x.com" "secret3" "" false,
     Some ("tok", mkSessionUser 3 "c@x.com"),
     mkDb (<["c@x.com" := User.mk 3 "c@x.com" "salt$secret3" 100 100]>
             (users Fixture.db)) 4 (todos Fixture.db) 3).
Proof.
  exact (proj1 (proj2 (form_signup Fixture.bcrypt_hash Fixture.bcrypt_compare
                         Fixture.jwt_sign 100 "salt"
                         (AuthForm.mk false "c@x.com" "secret3" "" false)
                         Fixture.db eq_refl)) eq_refl eq_refl).
Defined.

Lemma form_login_witness :
  handleSubmit Fixture.bcrypt_hash Fixture.bcrypt_compare Fixture.jwt_sign
    100 "salt" (AuthForm.mk true "a@x.com" "secret1" "" false) Fixture.db
  = (AuthForm.mk true "a@x.com" "secret1" "" false,
     Some ("tok1", mkSessionUser 1 "a@x.com"), Fixture.db).
Proof.
  exact (proj1 (form_login Fixture.bcrypt_hash Fixture.bcrypt_compare
                  Fixture.jwt_sign 100 "salt"
                  (AuthForm.mk true "a@x.com" "secret1" "" false)
                  Fixture.db eq_refl eq_refl) Fixture.alice eq_refl eq_refl).
Defined.

(** ** The session kept in the browser *)

Lemma no_token_nonempty s : s ≠ "" → no_token (Some s) = false.
Proof. by destruct s. Qed.

Section Session.

Variable J : Type.
Variable JSON_stringify : J → string.
Variable JSON_parse : string → option J.

(** X23: a session survives a reload: after [login(token, user)], mounting
    the provider again over the same [localStorage] restores that token and
    that user, provided the token and the stored text are non-empty and
    [JSON.parse] reads back what [JSON.stringify] wrote. *)
Theorem session_survives_reload newToken newUser st localStorage :
  newToken ≠ "" → JSON_stringify newUser ≠ "" →
  JSON_parse (JSON_stringify newUser) = Some newUser →
  let stored :=
    (provider_login J JSON_stringify newToken newUser st localStorage).2 in
  mount J JSON_parse stored
  = (AuthProvider.mk (Some newUser) (Some newToken) false, stored).
Proof.
  intros Htok Huser Hparse. cbv zeta. unfold provider_login, mount. cbn [snd].
  rewrite lookup_insert_eq.
  rewrite lookup_insert_ne, lookup_insert_eq by done.
  rewrite (no_token_nonempty _ Htok), (no_token_nonempty _ Huser). simpl.
  by rewrite Hparse.
Qed.

(** X24: after [logout()] nothing of the session is left: both keys are gone
    from [localStorage], every other key is as before, and mounting the
    provider again starts logged out. *)
Theorem logout_forgets_session (st : AuthProvider.t J) localStorage :
  let stored := (provider_logout J st localStorage).2 in
  stored !! "token" = None ∧ stored !! "user" = None
  ∧ (∀ k, k ≠ "token" → k ≠ "user" → stored !! k = localStorage !! k)
  ∧ mount J JSON_parse stored = (AuthProvider.mk None None false, stored).
Proof.
  cbv zeta. unfold provider_logout, mount. cbn [snd].
  assert (Htoken : base.delete "user" (base.delete "token" localStorage)
                   !! "token" = None).
  { rewrite lookup_delete_ne by done. apply lookup_delete_eq. }
  split_and!; [done | apply lookup_delete_eq | |].
  - intros k Hk1 Hk2. by rewrite !lookup_delete_ne.
  - by rewrite Htoken.
Qed.

(** X25: a stored user that [JSON.parse] cannot read ends the session: on
    mount both keys are removed and the provider starts logged out, as it
    does on every later mount. *)
Theorem unreadable_session_dropped localStorage storedToken storedUser :
  localStorage !! "token" = Some storedToken → storedToken ≠ "" →
  localStorage !! "user" = Some storedUser → storedUser ≠ "" →
  JSON_parse storedUser = None →
  let cleared := base.delete "user" (base.delete "token" localStorage) in
  mount J JSON_parse localStorage = (AuthProvider.mk None None false, cleared)
  ∧ mount J JSON_parse cleared = (AuthProvider.mk None None false, cleared).
Proof.
  intros Htok Htokne Huser Huserne Hparse. cbv zeta. split.
  - unfold mount. rewrite Htok, Huser.
    rewrite (no_token_nonempty _ Htokne), (no_token_nonempty _ Huserne).
    simpl. by rewrite Hparse.
  - unfold mount. rewrite lookup_delete_ne by done.
    by rewrite lookup_delete_eq.
Qed.

End Session.

Lemma session_survives_reload_witness :
  let stored :=
    (provider_login session_user JsonFixture.stringify "tok1"
       (mkSessionUser 1 "a@x.com") (AuthProvider.mk None None false) ∅).2 in
  mount session_user JsonFixture.parse stored
  = (AuthProvider.mk (Some (mkSessionUser 1 "a@x.com")) (Some "tok1") false,
     stored).
Proof.
  refine (session_survives_reload session_user JsonFixture.stringify
            JsonFixture.parse "tok1" (mkSessionUser 1 "a@x.com")
            (AuthProvider.mk None None false) ∅ _ _ eq_refl);
    discriminate.
Defined.

Lemma unreadable_session_dropped_witness :
  let stored : gmap string string := <["user" := "{oops"]> {["token" := "tok1"]} in
  let cleared := base.delete "user" (base.delete "token" stored) in
  mount session_user JsonFixture.parse stored
  = (AuthProvider.mk None None false, cleared)
  ∧ mount session_user JsonFixture.parse cleared
    = (AuthProvider.mk None None false, cleared).
Proof.
  refine (unreadable_session_dropped session_user JsonFixture.parse
            (<["user" := "{oops"]> {["token" := "tok1"]}) "tok1" "{oops"
            eq_refl _ eq_refl _ eq_refl); discriminate.
Defined.

(** ** From the form to the list *)

Section SignupToList.

Variable bcrypt_hash : string → string → string.
Variable bcrypt_compare : string → string → bool.
Variable jwt_sign : Z → Z → string.
Variable jwt_verify : Z → string → option Z.

(** X26: a user who signs up through the form and then loads the list sees
    their own todos and nothing else: the token of the signup answer, sent
    back as [Bearer <token>], passes the gate as the id of the new account,
    provided the token is non-empty, has no space, and [jwt.verify] accepts
    it for that id at the time of the second request. *)
Theorem signup_then_list now now' salt form st db :
  AuthForm.isLogin form = false →
  form_error form = None →
  users db !! AuthForm.email form = None →
  rows_keyed db →
  let userId := user_seq db in
  let token := jwt_sign userId now in
  token ≠ "" → no_space token = true →
  jwt_verify now' token = Some userId →
  ∃ form' db1 l,
    handleSubmit bcrypt_hash bcrypt_compare jwt_sign now salt form db
    = (form', Some (token, mkSessionUser userId (AuthForm.email form)), db1)
    ∧ fetchTodos jwt_verify now' (Some token) st db1
      = (TodoList.mk l (TodoList.newTodoTitle st) false "", db1)
    ∧ shows userId (TodoList.mk l (TodoList.newTodoTitle st) false "") db1.
Proof.
  intros Hmode Hvalid Hfree Hkeyed userId token Htok Hns Hverify.
  destruct (form_error_none _ Hvalid) as (He & Hp & _ & Hlen).
  unfold handleSubmit. rewrite Hmode, Hvalid.
  unfold api_signup. rewrite signup_created by done. cbv zeta.
  set (db1 := mkDb _ _ _ _).
  assert (Hkeyed1 : rows_keyed db1) by exact Hkeyed.
  assert (Hg : authenticateToken jwt_verify now' (Some ("Bearer " ++ token))
               = Next userId).
  { rewrite gate_bearer by done. by rewrite Hverify. }
  eexists _, db1, _. split; [reflexivity|].
  unfold fetchTodos. rewrite (no_token_nonempty _ Htok). cbn [default].
  unfold getTodos. rewrite (gate_lets_through _ _ _ _ _ _ _ Hg).
  cbn [handle]. rewrite get_todos_run. simpl.
  split; [reflexivity|]. exact (listed_shows userId db1 _ _ _ Hkeyed1).
Qed.

End SignupToList.

Lemma signup_then_list_witness :
  ∃ form' db1 l,
    handleSubmit Fixture.bcrypt_hash Fixture.bcrypt_compare Fixture.jwt_sign
      100 "salt" (AuthForm.mk false "u1@x.com" "pw123456" "" false) empty_db
    = (form', Some ("tok1", mkSessionUser 1 "u1@x.com"), db1)
    ∧ fetchTodos Fixture.jwt_verify 101 (Some "tok1")
        (TodoList.mk [] "" true "") db1
      = (TodoList.mk l "" false "", db1)
    ∧ shows 1 (TodoList.mk l "" false "") db1.
Proof.
  refine (signup_then_list Fixture.bcrypt_hash Fixture.bcrypt_compare
            Fixture.jwt_sign Fixture.jwt_verify 100 101 "salt"
            (AuthForm.mk false "u1@x.com" "pw123456" "" false)
            (TodoList.mk [] "" true "") empty_db
            eq_refl eq_refl _ _ _ eq_refl eq_refl).
  - apply lookup_empty.
  - intros i t H. simpl in H. rewrite lookup_empty in H. discriminate H.
  - discriminate.
Defined.

(** ** The theorems above on the sample store *)

Lemma signup_then_login_witness :
  ∃ token db1,
    signup Fixture.bcrypt_hash Fixture.jwt_sign 100 "salt"
      (Credentials.mk (JStr "c@x.com") (JStr "secret3")) Fixture.db
    = (mkResponse 201 (AuthBody "User created successfully" token 3 "c@x.com"),
       db1)
    ∧ login Fixture.bcrypt_compare Fixture.jwt_sign 200
        (Credentials.mk (JStr "c@x.com") (JStr "secret3")) db1
      = (mkResponse 200 (AuthBody "Login successful" "tok" 3 "c@x.com"), db1)
    ∧ (∀ q, q ≠ "" →
         Fixture.bcrypt_compare q (Fixture.bcrypt_hash "salt" "secret3")
         = false →
         login Fixture.bcrypt_compare Fixture.jwt_sign 200
           (Credentials.mk (JStr "c@x.com") (JStr q)) db1
         = (mkResponse 401 (ErrorBody "Invalid credentials"), db1)).
Proof.
  refine (signup_then_login Fixture.bcrypt_hash Fixture.bcrypt_compare
            Fixture.jwt_sign 100 200 "salt" "c@x.com" "secret3" Fixture.db
            _ _ eq_refl eq_refl).
  - discriminate.
  - simpl. lia.
Defined.

Lemma signup_twice_witness :
  let db1 :=
    (signup Fixture.bcrypt_hash Fixture.jwt_sign 100 "salt"
       (Credentials.mk (JStr "c@x.com") (JStr "secret3")) Fixture.db).2 in
  let second :=
    signup Fixture.bcrypt_hash Fixture.jwt_sign 200 "pepper"
      (Credentials.mk (JStr "c@x.com") (JStr "another")) db1 in
  status second.1 = 400
  ∧ second.2 = db1
  ∧ User.password <$> users db1 !! "c@x.com"
    = Some (Fixture.bcrypt_hash "salt" "secret3")
  ∧ (∀ q, JStr "another" = JStr q → (6 ≤ String.length q)%nat →
       second.1 = mkResponse 400 (ErrorBody "User already exists")).
Proof.
  refine (signup_twice Fixture.bcrypt_hash Fixture.jwt_sign 100 200 "salt"
            "pepper" "c@x.com" "secret3"
            (Credentials.mk (JStr "c@x.com") (JStr "another")) Fixture.db
            _ _ eq_refl eq_refl).
  - discriminate.
  - simpl. lia.
Defined.

Lemma login_sound_witness :
  ∃ e p u,
    Credentials.mk (JStr "a@x.com") (JStr "secret1")
    = Credentials.mk (JStr e) (JStr p)
    ∧ users Fixture.db !! e = Some u
    ∧ Fixture.bcrypt_compare p (User.password u) = true
    ∧ (login Fixture.bcrypt_compare Fixture.jwt_sign 100
         (Credentials.mk (JStr "a@x.com") (JStr "secret1")) Fixture.db).1
      = mkResponse 200 (AuthBody "Login successful"
                                 (Fixture.jwt_sign (User.id u) 100)
                                 (User.id u) (User.email u)).
Proof.
  exact (login_sound Fixture.bcrypt_compare Fixture.jwt_sign 100
           (Credentials.mk (JStr "a@x.com") (JStr "secret1")) Fixture.db
           eq_refl).
Defined.

Lemma accounts_only_added_witness :
  users (signup Fixture.bcrypt_hash Fixture.jwt_sign 100 "salt"
           (Credentials.mk (JStr "c@x.com") (JStr "secret3")) Fixture.db).2
    !! "a@x.com" = Some Fixture.alice.
Proof.
  exact (proj1 (accounts_only_added Fixture.bcrypt_hash Fixture.bcrypt_compare
                  Fixture.jwt_sign 100 "salt"
                  (Credentials.mk (JStr "c@x.com") (JStr "secret3"))
                  Fixture.jwt_verify
                  (mkRequest None GET_todos Fixture.no_body) Fixture.db)
           "a@x.com" Fixture.alice eq_refl).
Defined.

Lemma row_changed_only_by_owner_witness :
  authenticateToken Fixture.jwt_verify 100 (Some "Bearer tok1")
  = Next (Todo.userId Fixture.milk).
Proof.
  refine (row_changed_only_by_owner Fixture.jwt_verify 100
            (mkRequest (Some "Bearer tok1") (DELETE_todo "1") Fixture.no_body)
            Fixture.db 1 Fixture.milk eq_refl _).
  vm_compute. discriminate.
Defined.

Lemma responses_show_own_todos_witness : Todo.userId Fixture.milk = 1.
Proof.
  refine (responses_show_own_todos Fixture.jwt_verify 100
            (mkRequest (Some "Bearer tok1") (GET_todo "1") Fixture.no_body)
            1 Fixture.db Fixture.milk eq_refl _).
  vm_compute. apply list_elem_of_here.
Defined.

Lemma delete_then_read_witness :
  ∃ db',
    todos_router Fixture.jwt_verify 100
      (mkRequest (Some "Bearer tok1") (DELETE_todo "1") Fixture.no_body)
      Fixture.db
    = (mkResponse 200 (MessageBody "Todo deleted successfully"), db')
    ∧ todos db' = base.delete 1 (todos Fixture.db)
    ∧ (∀ j, j ≠ 1 → todos db' !! j = todos Fixture.db !! j)
    ∧ get_todo 2 "1" db'
      = (mkResponse 404 (ErrorBody "Todo not found"), db').
Proof.
  exact (delete_then_read Fixture.jwt_verify 100
           (mkRequest (Some "Bearer tok1") (DELETE_todo "1") Fixture.no_body)
           1 "1" 1 Fixture.milk Fixture.db 2
           eq_refl eq_refl eq_refl eq_refl eq_refl).
Defined.

Lemma create_then_read_witness :
  ∃ t db',
    todos_router Fixture.jwt_verify 100
      (mkRequest (Some "Bearer tok1") POST_todo
                 (Body.mk (JStr "call mum ") JUndefined)) Fixture.accounts
    = (mkResponse 201 (TodoBody t), db')
    ∧ get_todo 1 (Number_toString (Todo.id t)) db'
      = (mkResponse 200 (TodoBody t), db')
    ∧ (∀ other, other ≠ 1 →
         get_todo other (Number_toString (Todo.id t)) db'
         = (mkResponse 403 (ErrorBody "Access denied"), db')).
Proof.
  refine (create_then_read Fixture.jwt_verify 100
            (mkRequest (Some "Bearer tok1") POST_todo
                       (Body.mk (JStr "call mum ") JUndefined))
            1 "call mum " Fixture.accounts eq_refl eq_refl eq_refl _ _ _).
  - simpl. discriminate.
  - intros i t H. simpl in H. rewrite lookup_empty in H. discriminate H.
  - vm_compute. reflexivity.
Defined.

Lemma failure_changes_nothing_witness :
  let after :=
    (serve Fixture.bcrypt_hash Fixture.bcrypt_compare Fixture.jwt_sign
       Fixture.jwt_verify
       (Todos 100 (mkRequest (Some "Bearer tok2") (DELETE_todo "1")
                             Fixture.no_body)) Fixture.db).2 in
  users after = users Fixture.db ∧ todos after = todos Fixture.db.
Proof.
  refine (failure_changes_nothing Fixture.bcrypt_hash Fixture.bcrypt_compare
            Fixture.jwt_sign Fixture.jwt_verify
            (Todos 100 (mkRequest (Some "Bearer tok2") (DELETE_todo "1")
                                  Fixture.no_body)) Fixture.db _ _);
    vm_compute; discriminate.
Defined.

(** ** The shape of what the handlers of the frontend read *)

Lemma fetch_data r d :
  fetchWrapper r = Data d → d = json r ∧ ¬ error_answer r.
Proof.
  unfold fetchWrapper. intros H. split.
  - destruct ((200 <=? status r) && (status r <=? 299)); by simplify_eq.
  - intros (msg & _ & _ & Hst).
    destruct Hst as [Hs|[Hs|[Hs|[Hs|Hs]]]]; rewrite Hs in H; discriminate.
Qed.

Section Shapes.

Variable bcrypt_hash : string → string → string.
Variable bcrypt_compare : string → string → bool.
Variable jwt_sign : Z → Z → string.
Variable jwt_verify : Z → string → option Z.

Lemma router_data now req db d :
  fetchWrapper (todos_router jwt_verify now req db).1 = Data d →
  ∃ userId,
    authenticateToken jwt_verify now (authorization req) = Next userId
    ∧ d = json (handle now userId (target req) (body req) db).1
    ∧ ¬ error_answer (handle now userId (target req) (body req) db).1.
Proof.
  unfold todos_router.
  destruct (authenticateToken jwt_verify now (authorization req))
    as [r|userId] eqn:Hg.
  - intros [_ Hne]%fetch_data. destruct Hne. by eapply gate_answer.
  - intros [-> Hne]%fetch_data. by exists userId.
Qed.

(** X27: the data the API client returns has the shape its callers read: a
    list of todos from [getTodos], one todo from [createTodo] and
    [updateTodo], a message from [deleteTodo], and a message with token and
    user from [signup] and [login]. *)
Theorem api_data_shapes now salt token title id updates email password db d :
  (( getTodos jwt_verify now token db).1 = Data d → ∃ l, d = TodosBody l)
  ∧ ((createTodo jwt_verify now token title db).1 = Data d →
       ∃ t, d = TodoBody t)
  ∧ ((updateTodo jwt_verify now token id updates db).1 = Data d →
       ∃ t, d = TodoBody t)
  ∧ ((deleteTodo jwt_verify now token id db).1 = Data d →
       ∃ m, d = MessageBody m)
  ∧ ((api_signup bcrypt_hash jwt_sign now salt email password db).1 = Data d →
       ∃ m tok i e, d = AuthBody m tok i e)
  ∧ ((api_login bcrypt_compare jwt_sign now email password db).1 = Data d →
       ∃ m tok i e, d = AuthBody m tok i e).
Proof.
  split_and!; unfold getTodos, createTodo, updateTodo, deleteTodo, api_signup,
    api_login; rewrite let_pair; cbn [fst].
  - intros (u & _ & -> & _)%router_data. cbn [target handle].
    rewrite get_todos_run. by eexists.
  - intros (u & _ & -> & Hne)%router_data. cbn [target body] in *.
    destruct (handle_store now u POST_todo (Body.mk (JStr title) JUndefined) db)
      as (_ & _ & [(_ & _ & [Herr | [? | (? & ? & ? & ? & _)]])
         | [(s & _ & _ & _ & _ & ->)
         | [(? & ? & ? & ? & ? & _) | (? & ? & ? & ? & _)]]]); try done.
    by eexists.
  - intros (u & _ & -> & Hne)%router_data. cbn [target body] in *.
    destruct (handle_store now u (PUT_todo (Number_toString id)) updates db)
      as (_ & _ & [(_ & _ & [Herr | [? | (? & ? & ? & ? & _)]])
         | [(? & ? & _)
         | [(? & ? & ? & t' & _ & _ & _ & _ & _ & _ & _ & ->)
         | (? & ? & ? & ? & _)]]]); try done.
    by eexists.
  - intros (u & _ & -> & Hne)%router_data. cbn [target body] in *.
    destruct (handle_store now u (DELETE_todo (Number_toString id))
                (Body.mk JUndefined JUndefined) db)
      as (_ & _ & [(_ & _ & [Herr | [? | (? & ? & ? & ? & _)]])
         | [(? & ? & _)
         | [(? & ? & ? & ? & ? & _) | (? & ? & ? & _ & _ & _ & _ & ->)]]]);
      try done.
    by eexists.
  - intros [-> Hne]%fetch_data.
    destruct (signup_store bcrypt_hash jwt_sign now salt
                (Credentials.mk (JStr email) (JStr password)) db)
      as [[_ Herr] | (e & p & _ & _ & _ & _ & ->)]; [done|].
    simpl. by eexists _, _, _, _.
  - intros [-> Hne]%fetch_data. revert Hne.
    unfold login, try_catch, bind, prisma.user.findUnique.
    cbn [Credentials.email Credentials.password].
    assert (Herr : ∀ st msg, msg ≠ "" → st = 400 ∨ st = 401 →
              error_answer (mkResponse st (ErrorBody msg))).
    { intros st msg Hmsg Hst. exists msg. simpl. split_and!; [done..|tauto]. }
    destruct (negb (truthy (JStr email)) || negb (truthy (JStr password)));
      [intros []; apply Herr; [done|tauto]|].
    simpl. destruct (users db !! email) as [u|]; simpl;
      [|intros []; apply Herr; [done|tauto]].
    destruct (bcrypt_compare password (User.password u)); simpl;
      [|intros []; apply Herr; [done|tauto]].
    intros _. by eexists _, _, _, _.
Qed.

End Shapes.

Lemma api_data_shapes_witness :
  ∃ l, TodosBody [Fixture.milk] = TodosBody l.
Proof.
  exact (proj1 (api_data_shapes Fixture.bcrypt_hash Fixture.bcrypt_compare
                  Fixture.jwt_sign Fixture.jwt_verify 100 "salt" "tok1" "x" 1
                  Fixture.no_body "a@x.com" "secret1" Fixture.db
                  (TodosBody [Fixture.milk])) eq_refl).
Defined.

Lemma reachable_todo_ids_witness :
  let db :=
    run Fixture.bcrypt_hash Fixture.bcrypt_compare Fixture.jwt_sign
      Fixture.jwt_verify
      [Signup 1 "salt" (Credentials.mk (JStr "a@x.com") (JStr "secret"));
       Todos 2 (mkRequest (Some "Bearer tok1") POST_todo
                          (Body.mk (JStr "milk") JUndefined));
       Todos 3 (mkRequest (Some "Bearer tok1") (DELETE_todo "1")
                          Fixture.no_body)] empty_db in
  todos (run Fixture.bcrypt_hash Fixture.bcrypt_compare Fixture.jwt_sign
           Fixture.jwt_verify
           [Todos 4 (mkRequest (Some "Bearer tok1") POST_todo
                               (Body.mk (JStr "eggs") JUndefined))] db)
    !! 1 = None.
Proof.
  refine (proj2 (proj2 (proj2 (reachable_todo_ids Fixture.bcrypt_hash
            Fixture.bcrypt_compare Fixture.jwt_sign Fixture.jwt_verify
            [Signup 1 "salt" (Credentials.mk (JStr "a@x.com") (JStr "secret"));
             Todos 2 (mkRequest (Some "Bearer tok1") POST_todo
                                (Body.mk (JStr "milk") JUndefined));
             Todos 3 (mkRequest (Some "Bearer tok1") (DELETE_todo "1")
                                Fixture.no_body)]
            [Todos 4 (mkRequest (Some "Bearer tok1") POST_todo
                                (Body.mk (JStr "eggs") JUndefined))]))) 1 _ _).
  - vm_compute. reflexivity.
  - vm_compute. reflexivity.
Defined.
